(** * StockReader: a shallow embedding of [StockReader.py]

    The script asks for a Polygon.io key, a ticker and a number of days,
    fetches the daily bars over HTTP, writes a fixed-width text table and
    draws a chart.  Python values are modelled as follows.

    - [str] is [string]; the model covers ASCII text.
    - [int] is [Z]; [float] is a binary64 value, [spec_float] at
      precision 53 and maximal exponent 1024.
    - [datetime] is a record of calendar fields, with Python's own
      ordinal conversions.
    - Console, files, network, clock and matplotlib form an explicit
      [world] threaded through a state-and-exception monad.  What the
      program cannot choose (the environment variable, the lines typed,
      the clock, the replies of the network, the failures of disk and
      backend) is part of the world, so a statement about every world is
      a statement about every run.

    The call [os.system('cls' or 'clear')] made when the module is loaded
    only clears the terminal and is left out. *)

From Stdlib Require Import ZArith List String Ascii Bool Lia.
From Stdlib Require Import Floats.SpecFloat Sorting.Sorted.
From stdpp Require Import gmap strings.
Import ListNotations.

Local Open Scope string_scope.
Local Open Scope Z_scope.

(** ** Text: the [str] methods and conversions the script uses *)

(** [str.isspace] on ASCII: TAB..CR, FS..US and the blank. *)
Definition is_space (c : ascii) : bool :=
  let n := N_of_ascii c in
  (((9 <=? n) && (n <=? 13)) || ((28 <=? n) && (n <=? 32)))%N.

Definition is_digit (c : ascii) : bool :=
  let n := N_of_ascii c in ((48 <=? n) && (n <=? 57))%N.

Definition digit_val (c : ascii) : Z := Z.of_N (N_of_ascii c) - 48.

Definition is_lower (c : ascii) : bool :=
  let n := N_of_ascii c in ((97 <=? n) && (n <=? 122))%N.

Definition upper_char (c : ascii) : ascii :=
  if is_lower c then ascii_of_N (N_of_ascii c - 32) else c.

(** [s.upper()] *)
Fixpoint py_upper (s : string) : string :=
  match s with
  | EmptyString => EmptyString
  | String c r => String (upper_char c) (py_upper r)
  end.

Fixpoint py_lstrip (s : string) : string :=
  match s with
  | EmptyString => EmptyString
  | String c r => if is_space c then py_lstrip r else s
  end.

Fixpoint py_rstrip (s : string) : string :=
  match s with
  | EmptyString => EmptyString
  | String c r =>
      match py_rstrip r with
      | EmptyString => if is_space c then EmptyString else String c EmptyString
      | r' => String c r'
      end
  end.

(** [s.strip()] *)
Definition py_strip (s : string) : string := py_rstrip (py_lstrip s).

(** Truth value of a [str]: non-empty. *)
Definition str_truthy (s : string) : bool :=
  match s with EmptyString => false | _ => true end.

(** Digits of an [int] literal: decimal digits, single underscores allowed
    between two digits only.  [seen] tells whether the previous character
    was a digit; [cnt] counts the digits read. *)
Fixpoint int_digits (s : string) (acc : Z) (seen : bool) (cnt : nat)
  : option (Z * nat) :=
  match s with
  | EmptyString => if seen then Some (acc, cnt) else None
  | String c r =>
      if is_digit c then int_digits r (10 * acc + digit_val c) true (S cnt)
      else if Ascii.eqb c "_" then
             (if seen then int_digits r acc false cnt else None)
      else None
  end.

(** [sys.get_int_max_str_digits()], CPython's default. *)
Definition int_max_str_digits : nat := 4300.

(** The blanks [int()] skips around an ASCII literal: TAB..CR and the
    blank.  The separators FS..US, which [str.strip] removes, are not
    among them. *)
Definition is_int_space (c : ascii) : bool :=
  let n := N_of_ascii c in
  (((9 <=? n) && (n <=? 13)) || (n =? 32))%N.

Fixpoint int_lstrip (s : string) : string :=
  match s with
  | EmptyString => EmptyString
  | String c r => if is_int_space c then int_lstrip r else s
  end.

Fixpoint int_rstrip (s : string) : string :=
  match s with
  | EmptyString => EmptyString
  | String c r =>
      match int_rstrip r with
      | EmptyString =>
          if is_int_space c then EmptyString else String c EmptyString
      | r' => String c r'
      end
  end.

(** [int(s)] for a [str] argument, base 10; [None] is [ValueError]. *)
Definition py_int (s : string) : option Z :=
  let body := int_rstrip (int_lstrip s) in
  let '(neg, ds) :=
    match body with
    | String "-" r => (true, r)
    | String "+" r => (false, r)
    | _ => (false, body)
    end in
  match int_digits ds 0 false 0 with
  | Some (v, cnt) =>
      if (int_max_str_digits <? cnt)%nat then None
      else Some (if neg then - v else v)
  | None => None
  end.

(** Decimal digits of a natural number, most significant first. *)
Fixpoint dec_digits (fuel : nat) (n : Z) (acc : string) : string :=
  match fuel with
  | O => acc
  | S k =>
      let acc' := String (ascii_of_N (Z.to_N (48 + n mod 10))) acc in
      if n / 10 =? 0 then acc' else dec_digits k (n / 10) acc'
  end.

Definition dec_of_nonneg (n : Z) : string :=
  dec_digits (S (Z.to_nat (Z.log2 n))) n "".

(** [str(z)] for an [int]. *)
Definition str_of_int (z : Z) : string :=
  if z <? 0 then "-" +:+ dec_of_nonneg (- z) else dec_of_nonneg z.

(** Zero padding on the left, as [%02d] and friends do. *)
Fixpoint zeros (k : nat) : string :=
  match k with O => "" | S k' => String "0" (zeros k') end.

Definition zfill (width : nat) (s : string) : string :=
  zeros (width - String.length s) +:+ s.

Fixpoint spaces (k : nat) : string :=
  match k with O => "" | S k' => String " " (spaces k') end.

(** The format spec [:<w]: left aligned, padded with blanks, never cut. *)
Definition ljust (width : nat) (s : string) : string :=
  s +:+ spaces (width - String.length s).

(** ["c" * k] *)
Fixpoint str_repeat (c : ascii) (k : nat) : string :=
  match k with O => "" | S k' => String c (str_repeat c k') end.

(** [sub in s] for two strings. *)
Fixpoint str_contains (sub s : string) : bool :=
  String.prefix sub s ||
  match s with
  | EmptyString => false
  | String _ r => str_contains sub r
  end.

Definition hex_digit (n : N) : ascii :=
  ascii_of_N (if (n <? 10)%N then 48 + n else 87 + n)%N.

(** One character inside [repr(s)], [q] being the quote in use. *)
Definition repr_char (q c : ascii) : string :=
  let n := N_of_ascii c in
  if Ascii.eqb c q || Ascii.eqb c "\" then String "\" (String c "")
  else if (n =? 9)%N then "\t"
  else if (n =? 10)%N then "\n"
  else if (n =? 13)%N then "\r"
  else if (n <? 32)%N || (n =? 127)%N then
    String "\" (String "x" (String (hex_digit (n / 16))
                              (String (hex_digit (n mod 16)) "")))
  else String c "".

Fixpoint repr_body (q : ascii) (s : string) : string :=
  match s with
  | EmptyString => EmptyString
  | String c r => repr_char q c +:+ repr_body q r
  end.

(** The double quote. *)
Definition dquote : ascii := ascii_of_N 34.

(** [repr(s)] for a [str]: single quotes, unless the text has a single
    quote and no double quote. *)
Definition py_repr (s : string) : string :=
  let q : ascii :=
    if str_contains "'" s && negb (str_contains (String dquote "") s)
    then dquote else "'"%char in
  String q (repr_body q s) +:+ String q "".

(** ** Calendar: [datetime] and [timedelta(days=n)]

    The conversions are those of CPython's [datetime] module
    ([_ymd2ord] and [_ord2ymd]); ordinal 1 is 0001-01-01. *)

Record datetime := mk_datetime {
  dt_year : Z; dt_month : Z; dt_day : Z;
  dt_hour : Z; dt_minute : Z; dt_second : Z; dt_micro : Z
}.

Definition MAXORDINAL : Z := 3652059.
Definition DI400Y : Z := 146097.
Definition DI100Y : Z := 36524.
Definition DI4Y : Z := 1461.

Definition is_leap (y : Z) : bool :=
  (y mod 4 =? 0) && (negb (y mod 100 =? 0) || (y mod 400 =? 0)).

Definition days_before_year (year : Z) : Z :=
  let y := year - 1 in y * 365 + y / 4 - y / 100 + y / 400.

(** The tables [_DAYS_IN_MONTH] and [_DAYS_BEFORE_MONTH]. *)
Definition DAYS_IN_MONTH (m : Z) : Z :=
  match m with
  | 1 => 31 | 2 => 28 | 3 => 31 | 4 => 30 | 5 => 31 | 6 => 30
  | 7 => 31 | 8 => 31 | 9 => 30 | 10 => 31 | 11 => 30 | 12 => 31
  | _ => -1
  end.

Definition DAYS_BEFORE_MONTH (m : Z) : Z :=
  match m with
  | 1 => 0 | 2 => 31 | 3 => 59 | 4 => 90 | 5 => 120 | 6 => 151
  | 7 => 181 | 8 => 212 | 9 => 243 | 10 => 273 | 11 => 304 | 12 => 334
  | _ => -1
  end.

Definition days_in_month (year month : Z) : Z :=
  if (month =? 2) && is_leap year then 29 else DAYS_IN_MONTH month.

Definition days_before_month (year month : Z) : Z :=
  DAYS_BEFORE_MONTH month + (if (2 <? month) && is_leap year then 1 else 0).

Definition ymd2ord (year month day : Z) : Z :=
  days_before_year year + days_before_month year month + day.

Definition ord2ymd (n0 : Z) : Z * Z * Z :=
  let n := n0 - 1 in
  let n400 := n / DI400Y in
  let n := n mod DI400Y in
  let year := n400 * 400 + 1 in
  let n100 := n / DI100Y in
  let n := n mod DI100Y in
  let n4 := n / DI4Y in
  let n := n mod DI4Y in
  let n1 := n / 365 in
  let n := n mod 365 in
  let year := year + n100 * 100 + n4 * 4 + n1 in
  if (n1 =? 4) || (n100 =? 4) then (year - 1, 12, 31)
  else
    let leapyear := (n1 =? 3) && (negb (n4 =? 24) || (n100 =? 3)) in
    let month := Z.shiftr (n + 50) 5 in
    let preceding :=
      DAYS_BEFORE_MONTH month + (if (2 <? month) && leapyear then 1 else 0) in
    if n <? preceding then
      let month := month - 1 in
      let preceding :=
        preceding
        - (DAYS_IN_MONTH month + (if (month =? 2) && leapyear then 1 else 0)) in
      (year, month, n - preceding + 1)
    else (year, month, n - preceding + 1).

(** [dt.toordinal()] *)
Definition toordinal (d : datetime) : Z :=
  ymd2ord (dt_year d) (dt_month d) (dt_day d).

(** [datetime.combine(date.fromordinal(n), dt.time())] *)
Definition with_ordinal (n : Z) (d : datetime) : datetime :=
  let '(y, m, dd) := ord2ymd n in
  mk_datetime y m dd (dt_hour d) (dt_minute d) (dt_second d) (dt_micro d).

(** Largest magnitude of [timedelta.days]. *)
Definition MAX_DELTA_DAYS : Z := 999999999.

(** [dt - timedelta(days=n)]; [None] is [OverflowError], raised either by
    the [timedelta] constructor or because the result leaves
    [datetime.min .. datetime.max]. *)
Definition sub_days (d : datetime) (n : Z) : option datetime :=
  if MAX_DELTA_DAYS <? Z.abs n then None
  else
    let o := toordinal d - n in
    if (0 <? o) && (o <=? MAXORDINAL) then Some (with_ordinal o d) else None.

Definition two_digits (n : Z) : string := zfill 2 (str_of_int n).

(** [dt.strftime('%Y-%m-%d')].  The C library prints [%Y] without padding,
    so a year below 1000 gives fewer than four digits there; from year 1000
    on every platform agrees. *)
Definition strftime_ymd (d : datetime) : string :=
  str_of_int (dt_year d) +:+ "-" +:+ two_digits (dt_month d)
  +:+ "-" +:+ two_digits (dt_day d).

(** [dt.strftime('%Y-%m-%d %H:%M:%S')] *)
Definition strftime_ymd_hms (d : datetime) : string :=
  strftime_ymd d +:+ " " +:+ two_digits (dt_hour d) +:+ ":"
  +:+ two_digits (dt_minute d) +:+ ":" +:+ two_digits (dt_second d).

(** A well-formed [datetime] value. *)
Definition valid_datetime (d : datetime) : Prop :=
  1 <= dt_year d <= 9999 /\ 1 <= dt_month d <= 12 /\
  1 <= dt_day d <= days_in_month (dt_year d) (dt_month d) /\
  0 <= dt_hour d < 24 /\ 0 <= dt_minute d < 60 /\
  0 <= dt_second d < 60 /\ 0 <= dt_micro d < 1000000.

(** ** Numbers: binary64 [float] and the numeric cells of a table *)

Definition f64_mul : spec_float -> spec_float -> spec_float := SFmul 53 1024.
Definition f64_div : spec_float -> spec_float -> spec_float := SFdiv 53 1024.

(** [float(z)] for an [int], rounded to nearest-even. *)
Definition float_of_int (z : Z) : spec_float :=
  binary_normalize 53 1024 z 0 false.

(** The literals [0.995] and [1.005] as the doubles Python reads. *)
Definition f64_0_995 : spec_float :=
  S754_finite false 8962163258467287 (-53).
Definition f64_1_005 : spec_float :=
  S754_finite false 4526117625507348 (-52).

(** Quotient of [a] by [d > 0] rounded to the nearest integer, ties to the
    even one. *)
Definition div_half_even (a d : Z) : Z :=
  let q := a / d in
  match 2 * (a mod d) ?= d with
  | Lt => q
  | Gt => q + 1
  | Eq => if Z.even q then q else q + 1
  end.

(** [numpy.rint]: nearest integral double, ties to even, sign kept. *)
Definition f64_rint (x : spec_float) : spec_float :=
  match x with
  | S754_finite s m e =>
      if 0 <=? e then x
      else
        let n := div_half_even (Zpos m) (2 ^ (- e)) in
        if n =? 0 then S754_zero s
        else binary_normalize 53 1024 (cond_Zopp s n) 0 false
  | _ => x
  end.

(** [numpy.round(x, 2)] on a double: multiply by [10**2], [rint], divide. *)
Definition np_round2 (x : spec_float) : spec_float :=
  f64_div (f64_rint (f64_mul x (float_of_int 100))) (float_of_int 100).

(** Hundredths nearest to the exact value [m * 2^e]. *)
Definition cents (m : positive) (e : Z) : Z :=
  if 0 <=? e then 100 * Zpos m * 2 ^ e
  else div_half_even (100 * Zpos m) (2 ^ (- e)).

Definition fixed2 (k : Z) : string :=
  dec_of_nonneg (k / 100) +:+ "." +:+ zfill 2 (dec_of_nonneg (k mod 100)).

(** [format(x, '.2f')] for a [float]: the exact value, correctly rounded. *)
Definition format_2f (x : spec_float) : string :=
  match x with
  | S754_nan => "nan"
  | S754_infinity s => if s then "-inf" else "inf"
  | S754_zero s => if s then "-0.00" else "0.00"
  | S754_finite s m e => (if s then "-" else "") +:+ fixed2 (cents m e)
  end.

(** *** [repr] of a [float]: the shortest decimal that reads back *)

(** [10^k] as a fraction. *)
Definition pow10 (k : Z) : Z * Z :=
  if 0 <=? k then (10 ^ k, 1) else (1, 10 ^ (- k)).

(** Largest [E] from the start value on with [10^E <= num/den]. *)
Fixpoint find_exp10 (fuel : nat) (E num den : Z) : Z :=
  match fuel with
  | O => E
  | S k =>
      let '(A, B) := pow10 (E + 1) in
      if A * den <=? num * B then find_exp10 k (E + 1) num den else E
  end.

(** The [p]-digit decimals [c * 10^k] next to [m * 2^e] that read back as
    this double; the nearer of two.  Values are counted in units of
    [2^(e-2)], in which the double is [4m] and its rounding interval is
    [lo .. hi]. *)
Definition candidate (m : positive) (e E : Z) (p : Z) : option (Z * Z) :=
  let X := 4 * Zpos m in
  let lo := X - (if (Zpos m =? 2 ^ 52) && (-1074 <? e) then 1 else 2) in
  let hi := X + 2 in
  let '(N, D) := if 2 <=? e then (2 ^ (e - 2), 1) else (1, 2 ^ (2 - e)) in
  let even := Z.even (Zpos m) in
  let k := E - p + 1 in
  let '(A, B) := pow10 k in
  let c_lo := (X * N * B) / (D * A) in
  let c_hi := c_lo + 1 in
  let inside c :=
    let v := c * A * D in
    let l := lo * N * B in
    let h := hi * N * B in
    ((l <? v) || ((v =? l) && even)) && ((v <? h) || ((v =? h) && even)) in
  match inside c_lo, inside c_hi with
  | true, true =>
      let dl := X * N * B - c_lo * A * D in
      let dh := c_hi * A * D - X * N * B in
      if (dl <? dh) || ((dl =? dh) && Z.even c_lo)
      then Some (c_lo, k) else Some (c_hi, k)
  | true, false => Some (c_lo, k)
  | false, true => Some (c_hi, k)
  | false, false => None
  end.

Fixpoint shortest_from (fuel : nat) (m : positive) (e E p : Z) : Z * Z :=
  match fuel with
  | O => (0, 0)
  | S f =>
      match candidate m e E p with
      | Some ck => ck
      | None => shortest_from f m e E (p + 1)
      end
  end.

(** The decimal exponent of [m * 2^e] is searched from a lower bound got
    from the binary one: [log10 2] is a little more than 0.30102. *)
Definition shortest (m : positive) (e : Z) : Z * Z :=
  let '(N, D) := if 2 <=? e then (2 ^ (e - 2), 1) else (1, 2 ^ (2 - e)) in
  let b := Z.log2 (Zpos m) + 1 + e in
  let E0 := (b - 1) * 30102 / 100000 - 1 in
  let E := find_exp10 4 E0 (4 * Zpos m * N) D in
  shortest_from 17 m e E 1.

Fixpoint strip_zeros (fuel : nat) (c k : Z) : Z * Z :=
  match fuel with
  | O => (c, k)
  | S f => if (c mod 10 =? 0) && negb (c =? 0)
           then strip_zeros f (c / 10) (k + 1) else (c, k)
  end.

Definition str_take (n : nat) (s : string) : string := String.substring 0 n s.
Definition str_drop (n : nat) (s : string) : string :=
  String.substring n (String.length s - n) s.

(** The decimal [repr] prints for [m * 2^e]: the shortest one that reads
    back, [c * 10^k], without trailing zeros in [c]. *)
Definition repr_decimal (m : positive) (e : Z) : Z * Z :=
  let '(c0, k0) := shortest m e in strip_zeros 17 c0 k0.

(** [repr(x)], which is also [str(x)] and [format(x, '')]. *)
Definition float_repr (x : spec_float) : string :=
  match x with
  | S754_nan => "nan"
  | S754_infinity s => if s then "-inf" else "inf"
  | S754_zero s => if s then "-0.0" else "0.0"
  | S754_finite s m e =>
      let '(c, k) := repr_decimal m e in
      let ds := dec_of_nonneg c in
      let len := Z.of_nat (String.length ds) in
      let decpt := len + k in
      (if s then "-" else "") +:+
      (if (decpt <=? -4) || (16 <? decpt) then
         let ex := decpt - 1 in
         str_take 1 ds
         +:+ (if 1 <? len then "." +:+ str_drop 1 ds else "")
         +:+ "e" +:+ (if ex <? 0 then "-" else "+")
         +:+ zfill 2 (dec_of_nonneg (Z.abs ex))
       else if decpt <=? 0 then
         "0." +:+ zeros (Z.to_nat (- decpt)) +:+ ds
       else if len <=? decpt then
         ds +:+ zeros (Z.to_nat (decpt - len)) +:+ ".0"
       else
         str_take (Z.to_nat decpt) ds +:+ "." +:+ str_drop (Z.to_nat decpt) ds)
  end.

(** The number of digits after the point in the decimal [repr] prints;
    infinities and NaN have no decimal. *)
Definition decimal_places (x : spec_float) : option Z :=
  match x with
  | S754_finite _ m e => Some (Z.max 0 (- snd (repr_decimal m e)))
  | S754_zero _ => Some 0
  | _ => None
  end.

(** A numeric cell: pandas keeps a column either as [int64] or as
    [float64]. *)
Inductive number :=
| Int (z : Z)
| Flt (f : spec_float).

(** [str(v)] of a cell read back as a Python object. *)
Definition str_of_number (v : number) : string :=
  match v with
  | Int z => str_of_int z
  | Flt f => float_repr f
  end.

Definition float_of_number (v : number) : spec_float :=
  match v with
  | Int z => float_of_int z
  | Flt f => f
  end.

(** [format(v, '.2f')]; an integer is converted to [float] first. *)
Definition format_2f_number (v : number) : string :=
  format_2f (float_of_number v).

(** [Series.round(2)] on one cell: integers are left alone. *)
Definition round2_number (v : number) : number :=
  match v with
  | Int z => Int z
  | Flt f => Flt (np_round2 f)
  end.

(** ** JSON: what [response.json()] returns *)

(** A [dict] keeps its items in insertion order; [json.loads] lets the last
    of two equal keys win, which is how [dict_get] reads the list. *)
#[local] Unset Elimination Schemes.
Inductive json :=
| JNull
| JBool (b : bool)
| JNum (n : number)
| JStr (s : string)
| JArr (items : list json)
| JObj (fields : list (string * json)).
#[local] Set Elimination Schemes.

Fixpoint dict_get (k : string) (fields : list (string * json)) : option json :=
  match fields with
  | [] => None
  | (k', v) :: rest =>
      match dict_get k rest with
      | Some v' => Some v'
      | None => if String.eqb k k' then Some v else None
      end
  end.

(** [bool(v)] *)
Definition json_truthy (v : json) : bool :=
  match v with
  | JNull => false
  | JBool b => b
  | JNum (Int z) => negb (z =? 0)
  | JNum (Flt (S754_zero _)) => false
  | JNum (Flt _) => true
  | JStr s => str_truthy s
  | JArr items => match items with [] => false | _ => true end
  | JObj fields => match fields with [] => false | _ => true end
  end.

(** ['results' == v] *)
Definition is_str (k : string) (v : json) : bool :=
  match v with JStr s => String.eqb k s | _ => false end.

(** ** Exceptions, outcomes and the world *)

(** An exception object: the name of its class and [str(e)].  Every value
    of this type is an instance of [Exception]; [SystemExit] is the outcome
    [Exited] instead. *)
Record exn := mk_exn { exn_class : string; exn_text : string }.

Definition ValueError (msg : string) : exn := mk_exn "ValueError" msg.
Definition TypeError (msg : string) : exn := mk_exn "TypeError" msg.
Definition OverflowError (msg : string) : exn := mk_exn "OverflowError" msg.
Definition IndexError (msg : string) : exn := mk_exn "IndexError" msg.
Definition EOFError (msg : string) : exn := mk_exn "EOFError" msg.
Definition JSONDecodeError (msg : string) : exn := mk_exn "JSONDecodeError" msg.

(** How a call ends.  [Beyond] marks a run that leaves the part of pandas
    this model covers (see [DataFrame_of_results]); nothing is stated about
    such runs. *)
Inductive outcome (A : Type) :=
| Returned (a : A)
| Raised (e : exn)
| Exited
| Beyond.
Arguments Returned {A} a.
Arguments Raised {A} e.
Arguments Exited {A}.
Arguments Beyond {A}.

Record request := mk_request {
  req_url : string;
  req_params : list (string * string)
}.

Record response := mk_response {
  status_code : Z;
  text : string;
  json_body : option json     (* [None]: the body is not JSON *)
}.

Inductive reply :=
| Answer (r : response)
| NetworkError (e : exn).

(** The calls made on [matplotlib.pyplot], with the arguments that matter. *)
Inductive plot_cmd :=
| Figure (width height : Z)
| Plot (xs : list datetime) (ys : list number) (label : string)
| FillBetween (xs : list datetime) (lo hi : list number) (label : string)
| Title (s : string)
| XLabel (s : string)
| YLabel (s : string)
| Grid
| Legend
| MajorFormatter (fmt : string)
| MajorLocator (interval : Z)
| XTicks (rotation : Z)
| YLim (lo hi : spec_float)
| Annotate (label : string) (x : datetime) (y : number)
| TightLayout
| SaveFig (filename : string) (dpi : Z)
| Show.

Inductive file_data :=
| TextFile (content : string)
| ImageFile (drawn : list plot_cmd)
| CutFile.       (* an image file opened for writing and not completed *)

(** The world of one run.  The first group is what the program observes
    and cannot choose; the second group is what it changes. *)
Record world := mk_world {
  env_key : option string;            (* [os.getenv('POLYGON_API_KEY')] *)
  clock : nat -> datetime;            (* successive [datetime.now()] *)
  net : request -> reply;             (* what [requests.get] meets *)
  plt_fault : nat -> option exn;      (* pyplot call number -> failure *)
  open_fault : string -> option exn;  (* [open(name, 'w')] failing *)
  write_fault : nat -> option exn;    (* write number -> failure *)
  close_fault : option exn;           (* flushing and closing failing *)
  savefig_cut : bool;                 (* a failing [savefig] had opened its file *)
  stdin : list string;                (* lines not read yet *)
  ticks : nat;                        (* clock readings so far *)
  console : list string;              (* chunks written to stdout *)
  files : gmap string file_data;      (* the disk *)
  sent : list request;                (* calls of [requests.get] *)
  canvas : list plot_cmd;             (* pyplot calls that succeeded *)
  plt_calls : nat;                    (* pyplot calls so far *)
  writes : nat                        (* file writes so far *)
}.

(** ** The monad of effects *)

Definition M (A : Type) : Type := world -> outcome A * world.

#[global] Instance M_ret : MRet M := fun A a w => (Returned a, w).

#[global] Instance M_bind : MBind M := fun A B f m w =>
  match m w with
  | (Returned a, w') => f a w'
  | (Raised e, w') => (Raised e, w')
  | (Exited, w') => (Exited, w')
  | (Beyond, w') => (Beyond, w')
  end.

Definition raise {A} (e : exn) : M A := fun w => (Raised e, w).
Definition beyond {A} : M A := fun w => (Beyond, w).

(** [exit()] *)
Definition py_exit {A} : M A := fun w => (Exited, w).

(** [try: body  except Exception as e: handler e] *)
Definition try_except {A} (body : M A) (handler : exn -> M A) : M A :=
  fun w =>
    match body w with
    | (Raised e, w') => handler e w'
    | r => r
    end.

(** [with ...: body]: [exit] runs however the body ends; when the body
    raised and [exit] returns, the body's exception goes on. *)
Definition with_exit {A} (body : M A) (exit : M unit) : M A :=
  fun w =>
    match body w with
    | (Returned a, w') =>
        match exit w' with
        | (Returned _, w'') => (Returned a, w'')
        | (Raised e, w'') => (Raised e, w'')
        | (Exited, w'') => (Exited, w'')
        | (Beyond, w'') => (Beyond, w'')
        end
    | (Raised e, w') =>
        match exit w' with
        | (Returned _, w'') => (Raised e, w'')
        | (Raised e', w'') => (Raised e', w'')
        | (Exited, w'') => (Exited, w'')
        | (Beyond, w'') => (Beyond, w'')
        end
    | r => r
    end.

Definition lift_option {A} (o : option A) (e : exn) : M A :=
  match o with Some a => mret a | None => raise e end.

(** [int(s)] where it may raise. *)
Definition int_of_str (s : string) : M Z :=
  lift_option (py_int s)
    (ValueError ("invalid literal for int() with base 10: " +:+ py_repr s)).

(** *** Primitive effects *)

Definition set_console (c : list string) (w : world) : world :=
  mk_world (env_key w) (clock w) (net w) (plt_fault w) (open_fault w)
    (write_fault w) (close_fault w) (savefig_cut w)
    (stdin w) (ticks w) c (files w)
    (sent w) (canvas w) (plt_calls w) (writes w).

Definition set_stdin (l : list string) (w : world) : world :=
  mk_world (env_key w) (clock w) (net w) (plt_fault w) (open_fault w)
    (write_fault w) (close_fault w) (savefig_cut w)
    l (ticks w) (console w) (files w)
    (sent w) (canvas w) (plt_calls w) (writes w).

Definition set_ticks (n : nat) (w : world) : world :=
  mk_world (env_key w) (clock w) (net w) (plt_fault w) (open_fault w)
    (write_fault w) (close_fault w) (savefig_cut w)
    (stdin w) n (console w) (files w)
    (sent w) (canvas w) (plt_calls w) (writes w).

Definition set_files (f : gmap string file_data) (w : world) : world :=
  mk_world (env_key w) (clock w) (net w) (plt_fault w) (open_fault w)
    (write_fault w) (close_fault w) (savefig_cut w)
    (stdin w) (ticks w) (console w) f
    (sent w) (canvas w) (plt_calls w) (writes w).

Definition set_sent (l : list request) (w : world) : world :=
  mk_world (env_key w) (clock w) (net w) (plt_fault w) (open_fault w)
    (write_fault w) (close_fault w) (savefig_cut w)
    (stdin w) (ticks w) (console w) (files w)
    l (canvas w) (plt_calls w) (writes w).

Definition set_canvas (l : list plot_cmd) (n : nat) (w : world) : world :=
  mk_world (env_key w) (clock w) (net w) (plt_fault w) (open_fault w)
    (write_fault w) (close_fault w) (savefig_cut w)
    (stdin w) (ticks w) (console w) (files w)
    (sent w) l n (writes w).

Definition set_writes (n : nat) (w : world) : world :=
  mk_world (env_key w) (clock w) (net w) (plt_fault w) (open_fault w)
    (write_fault w) (close_fault w) (savefig_cut w)
    (stdin w) (ticks w) (console w) (files w)
    (sent w) (canvas w) (plt_calls w) n.

Definition newline : string := String (ascii_of_N 10) "".

(** [print(s)] *)
Definition print (s : string) : M unit :=
  fun w => (Returned tt, set_console (console w ++ [s +:+ newline]) w).

(** [input(prompt)]: the prompt goes to stdout, one line is read without
    its newline; end of input is [EOFError]. *)
Definition input (prompt : string) : M string :=
  fun w =>
    let w1 := set_console (console w ++ [prompt]) w in
    match stdin w with
    | [] => (Raised (EOFError "EOF when reading a line"), w1)
    | l :: rest => (Returned l, set_stdin rest w1)
    end.

(** [os.getenv('POLYGON_API_KEY')] *)
Definition getenv_key : M (option string) :=
  fun w => (Returned (env_key w), w).

(** [datetime.now()] *)
Definition datetime_now : M datetime :=
  fun w => (Returned (clock w (ticks w)), set_ticks (S (ticks w)) w).

(** [requests.get(url, params=params)] *)
Definition requests_get (url : string) (params : list (string * string))
  : M response :=
  fun w =>
    let rq := mk_request url params in
    let w1 := set_sent (sent w ++ [rq]) w in
    match net w rq with
    | Answer r => (Returned r, w1)
    | NetworkError e => (Raised e, w1)
    end.

(** One call on pyplot: it either raises what the backend raises or takes
    effect. *)
Definition plt (c : plot_cmd) : M unit :=
  fun w =>
    match plt_fault w (plt_calls w) with
    | Some e => (Raised e, set_canvas (canvas w) (S (plt_calls w)) w)
    | None => (Returned tt, set_canvas (canvas w ++ [c]) (S (plt_calls w)) w)
    end.

(** [plt.savefig(filename, dpi=300, bbox_inches='tight')]: a pyplot call
    that also leaves the picture drawn so far on disk.  The file is
    opened, and so emptied, before the picture is written: a call that
    fails after that leaves a cut file, a call that fails before it
    leaves the disk alone. *)
Definition plt_savefig (filename : string) (dpi : Z) : M unit :=
  fun w =>
    match plt_fault w (plt_calls w) with
    | Some e =>
        (Raised e,
         set_files
           (if savefig_cut w then <[filename := CutFile]> (files w)
            else files w)
           (set_canvas (canvas w) (S (plt_calls w)) w))
    | None =>
        (Returned tt,
         set_files (<[filename := ImageFile (canvas w)]> (files w))
           (set_canvas (canvas w ++ [SaveFig filename dpi])
              (S (plt_calls w)) w))
    end.

(** [open(filename, 'w')]: creates the file or empties it. *)
Definition f_open (filename : string) : M unit :=
  fun w =>
    match open_fault w filename with
    | Some e => (Raised e, w)
    | None => (Returned tt, set_files (<[filename := TextFile ""]> (files w)) w)
    end.

Definition file_text (d : option file_data) : string :=
  match d with Some (TextFile s) => s | _ => "" end.

(** [f.write(s)] on the file opened under [filename] *)
Definition f_write (filename s : string) : M unit :=
  fun w =>
    match write_fault w (writes w) with
    | Some e => (Raised e, set_writes (S (writes w)) w)
    | None =>
        (Returned tt,
         set_files
           (<[filename := TextFile (file_text (files w !! filename) +:+ s)]>
              (files w))
           (set_writes (S (writes w)) w))
    end.

(** Leaving the [with] block closes the file. *)
Definition f_close : M unit :=
  fun w =>
    match close_fault w with
    | Some e => (Raised e, w)
    | None => (Returned tt, w)
    end.

(** ** The table: a pandas [DataFrame] with the seven columns kept *)

Record bar := mk_bar {
  date : datetime;       (* the [Timestamp] of the bar *)
  date_str : string;
  open : number;
  high : number;
  low : number;
  close : number;
  volume : number
}.

Definition DataFrame : Type := list bar.

(** One item of the aggregates array as the API documents it: the fields
    [t], [o], [h], [l], [c], [v], all numbers, [t] an integer number of
    milliseconds. *)
Record raw_bar := mk_raw {
  raw_t : Z; raw_o : number; raw_h : number;
  raw_l : number; raw_c : number; raw_v : number
}.

Definition int64_ok (v : number) : bool :=
  match v with
  | Int z => (- 2 ^ 63 <=? z) && (z <? 2 ^ 63)
  | Flt _ => true
  end.

Definition get_number (k : string) (fields : list (string * json))
  : option number :=
  match dict_get k fields with
  | Some (JNum n) => if int64_ok n then Some n else None
  | _ => None
  end.

Definition raw_of_json (item : json) : option raw_bar :=
  match item with
  | JObj fields =>
      match get_number "t" fields, get_number "o" fields,
            get_number "h" fields, get_number "l" fields,
            get_number "c" fields, get_number "v" fields with
      | Some (Int t), Some o, Some h, Some l, Some c, Some v =>
          Some (mk_raw t o h l c v)
      | _, _, _, _, _, _ => None
      end
  | _ => None
  end.

Fixpoint raws_of_items (items : list json) : option (list raw_bar) :=
  match items with
  | [] => Some []
  | it :: rest =>
      match raw_of_json it, raws_of_items rest with
      | Some r, Some rs => Some (r :: rs)
      | _, _ => None
      end
  end.

(** A column whose cells are all integers is [int64]; one float makes the
    whole column [float64]. *)
Definition is_int (v : number) : bool :=
  match v with Int _ => true | Flt _ => false end.

Definition column_cell (col : list number) (v : number) : number :=
  if forallb is_int col then v else Flt (float_of_number v).

(** Largest [t] in milliseconds whose nanosecond count fits 64 bits. *)
Definition MAX_TIMESTAMP_MS : Z := (2 ^ 63 - 1) / 1000000.

Definition MS_PER_DAY : Z := 86400000.

(** Ordinal of 1970-01-01. *)
Definition EPOCH_ORDINAL : Z := 719163.

(** [pd.to_datetime(t, unit='ms')] for one cell, on the instants every
    version of pandas holds: those whose nanosecond count fits 64 bits,
    1677-09-21 to 2262-04-11.  Beyond them pandas before version 3
    raises and later versions convert at a coarser resolution; the model
    gives [None] there and covers neither. *)
Definition to_datetime_ms (t : Z) : option datetime :=
  if MAX_TIMESTAMP_MS <? Z.abs t then None
  else
    let '(y, m, d) := ord2ymd (EPOCH_ORDINAL + t / MS_PER_DAY) in
    let r := t mod MS_PER_DAY in
    Some (mk_datetime y m d (r / 3600000) (r / 60000 mod 60)
            (r / 1000 mod 60) (r mod 1000 * 1000)).

Fixpoint dates_of (rs : list raw_bar) : option (list datetime) :=
  match rs with
  | [] => Some []
  | r :: rest =>
      match to_datetime_ms (raw_t r), dates_of rest with
      | Some d, Some ds => Some (d :: ds)
      | _, _ => None
      end
  end.

(** Lines 35 to 52 on one row: the date and its text, the renamed columns
    in their column types, the four prices rounded. *)
Definition bar_of (rs : list raw_bar) (r : raw_bar) (d : datetime) : bar :=
  mk_bar d (strftime_ymd d)
    (round2_number (column_cell (map raw_o rs) (raw_o r)))
    (round2_number (column_cell (map raw_h rs) (raw_h r)))
    (round2_number (column_cell (map raw_l rs) (raw_l r)))
    (round2_number (column_cell (map raw_c rs) (raw_c r)))
    (column_cell (map raw_v rs) (raw_v r)).

Fixpoint zip_with {A B C} (f : A -> B -> C) (l : list A) (k : list B)
  : list C :=
  match l, k with
  | a :: l', b :: k' => f a b :: zip_with f l' k'
  | _, _ => []
  end.

(** Lines 32 to 54.  The model covers a [results] value that is an array
    of objects of the documented kind (the six fields present, all
    numbers, [t] an integer) whose timestamps every version of pandas
    converts alike.  What pandas makes of anything else (an object of
    column lists, items with null or missing cells, timestamps beyond the
    nanosecond range) depends on the shape and on the version, and may
    well be a table: such runs are [Beyond], and no statement in this
    file is drawn from the fact that the model returned a table. *)
Definition DataFrame_of_results (results : json) : M DataFrame :=
  match results with
  | JArr items =>
      match raws_of_items items with
      | Some rs =>
          match dates_of rs with
          | Some ds => mret (zip_with (bar_of rs) rs ds)
          | None => beyond
          end
      | None => beyond
      end
  | _ => beyond
  end.

(** ** The program *)

(** ['results' in data] *)
Definition contains_results (data : json) : M bool :=
  match data with
  | JObj fields =>
      mret (match dict_get "results" fields with Some _ => true | None => false end)
  | JArr items => mret (existsb (is_str "results") items)
  | JStr s => mret (str_contains "results" s)
  | _ => raise (TypeError "argument is not iterable")
  end.

(** [data['results']], evaluated only after the membership test. *)
Definition getitem_results (data : json) : M json :=
  match data with
  | JObj fields =>
      match dict_get "results" fields with
      | Some v => mret v
      | None => raise (mk_exn "KeyError" "'results'")
      end
  | JArr _ => raise (TypeError "list indices must be integers or slices, not str")
  | _ => raise (TypeError "string indices must be integers, not 'str'")
  end.

(** [response.json()] *)
Definition response_json (r : response) : M json :=
  lift_option (json_body r) (JSONDecodeError "Expecting value").

Definition API_BASE : string := "https://api.polygon.io/v2/aggs/ticker/".

Definition request_url (ticker start_date end_date : string) : string :=
  API_BASE +:+ ticker +:+ "/range/1/day/" +:+ start_date +:+ "/" +:+ end_date.

Definition request_params (api_key : string) : list (string * string) :=
  [("adjusted", "true"); ("sort", "asc"); ("apikey", api_key)].

(** Lines 28 to 61 of [get_stock_data]: what is made of the response.
    [None] is Python's [None]. *)
Definition read_response (response : response) : M (option DataFrame) :=
  if status_code response =? 200 then
    data ← response_json response;
    has ← contains_results data;
    (if (has : bool) then
       results ← getitem_results data;
       if json_truthy results then
         final_df ← DataFrame_of_results results;
         mret (Some final_df)
       else
         print "No data found in API response";;
         mret None
     else
       print "No data found in API response";;
       mret None)
  else
    print ("API Error: " +:+ str_of_int (status_code response) +:+ " - "
           +:+ text response);;
    mret None.

(** [get_stock_data(api_key, ticker, days_tracked)], lines 10 to 61; the
    clock is read twice, then [int] and the subtraction are evaluated. *)
Definition get_stock_data (api_key ticker days_tracked : string)
  : M (option DataFrame) :=
  now1 ← datetime_now;
  let end_date := strftime_ymd now1 in
  now2 ← datetime_now;
  n ← int_of_str days_tracked;
  start ← lift_option (sub_days now2 n)
            (OverflowError "date value out of range");
  let start_date := strftime_ymd start in
  let url := request_url ticker start_date end_date in
  let params := request_params api_key in
  response ← requests_get url params;
  read_response response.

(** [min] and [max] of a column, as [Series.min()] and [Series.max()]
    give them: NaN cells are skipped, an empty column gives NaN. *)
Definition f64_is_nan (x : spec_float) : bool :=
  match x with S754_nan => true | _ => false end.

Definition f64_min (a b : spec_float) : spec_float :=
  if f64_is_nan a then b else if f64_is_nan b then a
  else if SFltb b a then b else a.

Definition f64_max (a b : spec_float) : spec_float :=
  if f64_is_nan a then b else if f64_is_nan b then a
  else if SFltb a b then b else a.

Definition column_min (col : list number) : spec_float :=
  fold_left f64_min (map float_of_number col) S754_nan.

Definition column_max (col : list number) : spec_float :=
  fold_left f64_max (map float_of_number col) S754_nan.

(** [col.iloc[-1]] *)
Definition iloc_last {A} (col : list A) : M A :=
  lift_option (last col)
    (IndexError "single positional indexer is out-of-bounds").

(** Lines 69 to 113: the body of the [try] of [create_price_graph]. *)
Definition draw_chart (stock days_tracked : string) (df : DataFrame)
    (filename : string) : M unit :=
  plt (Figure 12 8);;
  plt (Plot (map date df) (map close df) "Close Price");;
  plt (FillBetween (map date df) (map low df) (map high df)
         "Daily Range (High-Low)");;
  plt (Title (stock +:+ " Stock Price - Last " +:+ days_tracked
              +:+ " Days"));;
  plt (XLabel "Date");;
  plt (YLabel "Price ($)");;
  plt Grid;;
  plt Legend;;
  days ← int_of_str days_tracked;
  let x_int := Z.max 1 (days / 15) in
  plt (MajorFormatter "%m/%d");;
  plt (MajorLocator x_int);;
  plt (XTicks 45);;
  let y_min := f64_mul (column_min (map low df)) f64_0_995 in
  let y_max := f64_mul (column_max (map high df)) f64_1_005 in
  plt (YLim y_min y_max);;
  latest_price ← iloc_last (map close df);
  latest_date ← iloc_last (map date df);
  plt (Annotate ("Latest: $" +:+ format_2f_number latest_price)
         latest_date latest_price);;
  plt TightLayout;;
  plt_savefig filename 300;;
  plt Show.

(** [create_price_graph(stock, days_tracked, df, filename)], lines 63 to
    116. *)
Definition create_price_graph (stock days_tracked : string)
    (df : option DataFrame) (filename : string) : M unit :=
  match df with
  | None => print "No data to graph"
  | Some df =>
      try_except (draw_chart stock days_tracked df filename)
        (fun e => print ("Error creating graph: " +:+ exn_text e))
  end.

Definition table_header : string :=
  ljust 12 "Date" +:+ " " +:+ ljust 8 "Open" +:+ " " +:+ ljust 8 "High"
  +:+ " " +:+ ljust 8 "Low" +:+ " " +:+ ljust 8 "Close" +:+ " "
  +:+ ljust 12 "Volume" +:+ newline.

(** The text of one row, lines 136 to 141. *)
Definition row_line (row : bar) : string :=
  ljust 12 (date_str row) +:+ " "
  +:+ ljust 8 (str_of_number (open row)) +:+ " "
  +:+ ljust 8 (str_of_number (high row)) +:+ " "
  +:+ ljust 8 (str_of_number (low row)) +:+ " "
  +:+ ljust 8 (str_of_number (close row)) +:+ " "
  +:+ ljust 12 (str_of_number (volume row)) +:+ newline.

(** [for _, row in df.iterrows(): f.write(...)] *)
Fixpoint write_rows (filename : string) (rows : list bar) : M unit :=
  match rows with
  | [] => mret tt
  | row :: rest => f_write filename (row_line row);; write_rows filename rest
  end.

(** Lines 124 to 141: the body of the [try] of [save_to_text_file]. *)
Definition write_table (df : DataFrame) (filename : string) : M unit :=
  f_open filename;;
  with_exit
    (f_write filename ("Stock Data" +:+ newline);;
     f_write filename (str_repeat "=" 50 +:+ newline);;
     now ← datetime_now;
     f_write filename ("Data retrieved on: " +:+ strftime_ymd_hms now
                       +:+ newline +:+ newline);;
     f_write filename table_header;;
     f_write filename (str_repeat "-" 60 +:+ newline);;
     write_rows filename df)
    f_close.

(** [save_to_text_file(df, filename)], lines 118 to 144. *)
Definition save_to_text_file (df : option DataFrame) (filename : string)
  : M unit :=
  match df with
  | None => print "No data to save"
  | Some df =>
      try_except (write_table df filename)
        (fun e => print ("Error saving file: " +:+ exn_text e))
  end.

(** Truth value of a value that is a [str] or [None]. *)
Definition opt_str_truthy (o : option string) : bool :=
  match o with Some s => str_truthy s | None => false end.

(** [get_api_key()], lines 146 to 160. *)
Definition get_api_key : M (option string) :=
  api_key ← getenv_key;
  if opt_str_truthy api_key then mret api_key
  else
    api_key ← input "Enter your Polygon.io API key: ";
    let api_key := py_strip api_key in
    if negb (str_truthy api_key) then
      print "API key is required to continue";;
      mret None
    else mret (Some api_key).

(** Lines 178 to 184 of the main block: what is done with the table. *)
Definition report (stock days_tracked : string)
    (stock_data : option DataFrame) : M unit :=
  match stock_data with
  | Some df =>
      print (newline +:+ "Successfully retrieved data for " +:+ stock);;
      save_to_text_file (Some df) "stock_data.txt";;
      create_price_graph stock days_tracked (Some df) "stock_chart.png"
  | None => print "Failed to retrieve data"
  end.

(** The body under [if __name__ == "__main__":], lines 162 to 184.  The
    two output functions are called with their default file names. *)
Definition main : M unit :=
  print ("=== Stock Price Tracker ===" +:+ newline);;
  API_KEY ← get_api_key;
  (if negb (opt_str_truthy API_KEY) then print "Exiting...";; py_exit
   else mret tt);;
  let API_KEY := default "" API_KEY in
  stock ← input (newline +:+ "Enter a Ticker to Track: ");
  let stock := py_upper stock in
  days_tracked ← input "Enter Number of Days: ";
  stock_data ← get_stock_data API_KEY stock days_tracked;
  report stock days_tracked stock_data.

(** ** Vocabulary of the statements *)

(** The month and day of day [n] (from 0) of a year: the last part of
    [ord2ymd], named so that it can be checked on its own. *)
Definition month_day (leapyear : bool) (n : Z) : Z * Z :=
  let month := Z.shiftr (n + 50) 5 in
  let preceding :=
    DAYS_BEFORE_MONTH month + (if (2 <? month) && leapyear then 1 else 0) in
  if n <? preceding then
    let month := month - 1 in
    let preceding :=
      preceding
      - (DAYS_IN_MONTH month + (if (month =? 2) && leapyear then 1 else 0)) in
    (month, n - preceding + 1)
  else (month, n - preceding + 1).

Definition month_day_ok (leap : bool) (n : Z) : bool :=
  let '(m, d) := month_day leap n in
  (1 <=? m) && (m <=? 12) && (1 <=? d)
  && (d <=? (if (m =? 2) && leap then 29 else DAYS_IN_MONTH m))
  && (DAYS_BEFORE_MONTH m + (if (2 <? m) && leap then 1 else 0) + d =? n + 1).

(** [t] holds on the [k] integers from [n] on. *)
Fixpoint all_from (k : nat) (n : Z) (t : Z -> bool) : bool :=
  match k with
  | O => true
  | S k' => if t n then all_from k' (n + 1) t else false
  end.

(** The calendar day of a [datetime]. *)
Definition same_day (a b : datetime) : Prop :=
  dt_year a = dt_year b /\ dt_month a = dt_month b /\ dt_day a = dt_day b.

(** The shape YYYY-MM-DD: four digits, a dash, two digits, a dash, two
    digits. *)
Definition is_iso_date (s : string) : bool :=
  match list_ascii_of_string s with
  | [y1; y2; y3; y4; a; m1; m2; b; d1; d2] =>
      forallb is_digit [y1; y2; y3; y4; m1; m2; d1; d2]
      && Ascii.eqb a "-" && Ascii.eqb b "-"
  | _ => false
  end.

(** A parsed body in which [get_stock_data] finds no bars: an object
    without the key [results] or with a falsy value under it (the empty
    array is one), a list without the item ['results'], a string without
    that text. *)
Definition no_results (data : json) : bool :=
  match data with
  | JObj fields =>
      match dict_get "results" fields with
      | None => true
      | Some v => negb (json_truthy v)
      end
  | JArr items => negb (existsb (is_str "results") items)
  | JStr s => negb (str_contains "results" s)
  | _ => false
  end.

(** A response that carries no bars. *)
Definition bad_reply (r : response) : Prop :=
  status_code r <> 200 \/
  exists data, json_body r = Some data /\ no_results data = true.

(** What [get_stock_data] prints for such a response. *)
Definition error_message (r : response) : string :=
  if status_code r =? 200 then "No data found in API response" +:+ newline
  else "API Error: " +:+ str_of_int (status_code r) +:+ " - " +:+ text r
       +:+ newline.

(** The line typed at the ticker prompt: the first line of input when the
    key comes from the environment, the second when it was typed too. *)
Definition ticker_line (w : world) : string :=
  if opt_str_truthy (env_key w) then nth 0 (stdin w) ""
  else nth 1 (stdin w) "".

(** A computation that leaves a component of the world as it was. *)
Definition preserves {A B} (proj : world -> B) (m : M A) : Prop :=
  forall w, proj (snd (m w)) = proj w.

(** A computation that ends by returning or by raising an [Exception]. *)
Definition no_escape {A} (m : M A) : Prop :=
  forall w, match fst (m w) with
            | Returned _ | Raised _ => True
            | _ => False
            end.

(** The digits after the point in [format(x, '.2f')]. *)
Definition two_decimals (s : string) : Prop :=
  exists whole d1 d2,
    s = whole +:+ "." +:+ String d1 (String d2 "")
    /\ is_digit d1 = true /\ is_digit d2 = true.

(** Zero or a non-zero finite double. *)
Definition is_finite (x : spec_float) : bool :=
  match x with
  | S754_zero _ | S754_finite _ _ _ => true
  | _ => false
  end.

(** Two digits come out of [zfill 2] on the decimal text of [n]. *)
Definition two_digit_text (n : Z) : bool :=
  match zfill 2 (dec_of_nonneg n) with
  | String d1 (String d2 "") => is_digit d1 && is_digit d2
  | _ => false
  end.

(** The decimal text of [y] is four digits. *)
Definition four_digit_text (y : Z) : bool :=
  match str_of_int y with
  | String a (String b (String c (String d ""))) =>
      is_digit a && is_digit b && is_digit c && is_digit d
  | _ => false
  end.

(** The request [get_stock_data] sends when the start date is [start]. *)
Definition request_of (w : world) (api_key ticker : string) (start : datetime)
  : request :=
  mk_request
    (request_url ticker (strftime_ymd start) (strftime_ymd (clock w (ticks w))))
    (request_params api_key).

(** The world when the reply to [rq] comes in: the clock was read twice,
    the request is logged, console and input are as the prompts left
    them. *)
Definition world_at_reply (w : world) (rq : request) (c s : list string)
  : world :=
  set_sent (sent w ++ [rq])
    (set_ticks (S (S (ticks w))) (set_stdin s (set_console c w))).

(** A world in which the key is set, the user types a ticker and a line
    of days, and nothing has happened yet. *)
Definition fresh_world (key : option string) (lines : list string)
    (clk : nat -> datetime) (nt : request -> reply) : world :=
  mk_world key clk nt (fun _ => None) (fun _ => None) (fun _ => None) None
    false
    lines 0 [] ∅ [] [] 0 0.

(** Noon of a day. *)
Definition noon (y m d : Z) : datetime := mk_datetime y m d 12 0 0 0.

(** The rows of the table, one line each, in order. *)
Fixpoint concat_rows (rows : list bar) : string :=
  match rows with
  | [] => ""
  | row :: rest => row_line row +:+ concat_rows rest
  end.

(** The lines of a text, one after the other. *)
Definition str_concat (lines : list string) : string :=
  fold_right String.append "" lines.

(** The five lines above the rows, written at time [now]. *)
Definition table_head (now : datetime) : string :=
  ("Stock Data" +:+ newline)
  +:+ (str_repeat "=" 50 +:+ newline)
  +:+ ("Data retrieved on: " +:+ strftime_ymd_hms now +:+ newline +:+ newline)
  +:+ table_header
  +:+ (str_repeat "-" 60 +:+ newline).

(** The text [save_to_text_file] means to write at time [now]. *)
Definition table_text (now : datetime) (df : DataFrame) : string :=
  ("Stock Data" +:+ newline)
  +:+ (str_repeat "=" 50 +:+ newline)
  +:+ ("Data retrieved on: " +:+ strftime_ymd_hms now +:+ newline +:+ newline)
  +:+ table_header
  +:+ (str_repeat "-" 60 +:+ newline)
  +:+ concat_rows df.

(** ** Sample runs *)

Definition f64 (m : positive) (e : Z) : number := Flt (S754_finite false m e).

(** One bar as the API sends it; [n] and [vw] are fields the program
    does not read. *)
Definition sample_item (t : Z) (o h l c v : number) : json :=
  JObj [("v", JNum v); ("vw", JNum o); ("o", JNum o); ("c", JNum c);
        ("h", JNum h); ("l", JNum l); ("t", JNum (Int t));
        ("n", JNum (Int 5))].

(** Two bars, 2024-01-02 and 2024-01-03; the first open is 150.256 and
    the first close 2.675 as doubles. *)
Definition sample_items : list json :=
  [sample_item 1704171600000
     (f64 5286663012579541 (-45)) (f64 6531626834570772 (-45))
     (Int 150) (f64 6023564501608038 (-51)) (Int 1000);
   sample_item 1704258000000
     (Int 187) (Int 188) (Int 183) (Int 184) (Flt (float_of_int 123456))].

Definition sample_body : json :=
  JObj [("ticker", JStr "AAPL"); ("resultsCount", JNum (Int 2));
        ("results", JArr sample_items); ("status", JStr "OK")].

Definition sample_fields : list (string * json) :=
  [("ticker", JStr "AAPL"); ("resultsCount", JNum (Int 2));
   ("results", JArr sample_items); ("status", JStr "OK")].

Definition sample_response : response :=
  mk_response 200 "{...}" (Some sample_body).

Definition not_found : response := mk_response 404 "Not Found" None.

Definition no_bars : response :=
  mk_response 200 "{...}"
    (Some (JObj [("status", JStr "OK"); ("results", JArr [])])).

Definition no_key : response :=
  mk_response 200 "{...}" (Some (JObj [("status", JStr "OK")])).

(** The user has the key in the environment and types [aapl] and [30] on
    1 March 2024; the network answers [r]. *)
Definition world_answering (r : response) : world :=
  fresh_world (Some "KEY") ["aapl"; "30"] (fun _ => noon 2024 3 1)
    (fun _ => Answer r).

Definition sample_request : request :=
  mk_request
    "https://api.polygon.io/v2/aggs/ticker/AAPL/range/1/day/2024-01-31/2024-03-01"
    [("adjusted", "true"); ("sort", "asc"); ("apikey", "KEY")].

Definition sample_raws : list raw_bar :=
  Eval vm_compute in default [] (raws_of_items sample_items).

Definition sample_dates : list datetime :=
  Eval vm_compute in default [] (dates_of sample_raws).

Definition sample_table : DataFrame :=
  Eval vm_compute in zip_with (bar_of sample_raws) sample_raws sample_dates.

Definition sample_last : bar :=
  Eval vm_compute in
    default (mk_bar (noon 1 1 1) "" (Int 0) (Int 0) (Int 0) (Int 0) (Int 0))
      (last sample_table).

(** A clock that passes midnight between its first two readings. *)
Definition midnight_clock (k : nat) : datetime :=
  match k with
  | O => mk_datetime 2024 3 1 23 59 59 999999
  | _ => mk_datetime 2024 3 2 0 0 0 3
  end.

(** ** Vocabulary of the further properties *)

(** The key a run works with: the environment variable when it is set
    and not empty, the first line typed, stripped, otherwise. *)
Definition key_line (w : world) : string :=
  if opt_str_truthy (env_key w) then default "" (env_key w)
  else py_strip (nth 0 (stdin w) "").

(** The line typed at the prompt for the number of days. *)
Definition days_line (w : world) : string :=
  if opt_str_truthy (env_key w) then nth 1 (stdin w) ""
  else nth 2 (stdin w) "".

(** What is on the console when the fetch starts. *)
Definition prompts (w : world) : list string :=
  [("=== Stock Price Tracker ===" +:+ newline) +:+ newline]
  ++ (if opt_str_truthy (env_key w) then []
      else ["Enter your Polygon.io API key: "])
  ++ [newline +:+ "Enter a Ticker to Track: "; "Enter Number of Days: "].

(** The world when the fetch starts: the prompts are on the console and
    the lines they asked for are read. *)
Definition world_at_fetch (w : world) : world :=
  set_stdin (drop (if opt_str_truthy (env_key w) then 2 else 3)%nat (stdin w))
    (set_console (console w ++ prompts w) w).

(** The run gets as far as the fetch: a key is there and the two lines
    are typed. *)
Definition reaches_fetch (w : world) : bool :=
  if opt_str_truthy (env_key w) then (2 <=? length (stdin w))%nat
  else str_truthy (py_strip (nth 0 (stdin w) ""))
       && (3 <=? length (stdin w))%nat.

(** The request of a run, when it makes one: the fetch is reached, the
    days are a number and the start date exists. *)
Definition request_of_run (w : world) : option request :=
  if reaches_fetch w then
    match py_int (days_line w) with
    | Some n =>
        match sub_days (clock w (S (ticks w))) n with
        | Some start =>
            Some (request_of w (key_line w) (py_upper (ticker_line w)) start)
        | None => None
        end
    | None => None
    end
  else None.

(** The world when the reply of the run's request comes in. *)
Definition world_at_answer (w : world) (rq : request) : world :=
  set_sent (sent w ++ [rq])
    (set_ticks (S (S (ticks w))) (world_at_fetch w)).

(** The class of the exception a 200 response leads to when its body
    cannot be searched for [results]: no JSON at all, or a JSON value
    that is neither an object, a list nor a string. *)
Definition unreadable_body (r : response) : option string :=
  match json_body r with
  | None => Some "JSONDecodeError"
  | Some JNull | Some (JBool _) | Some (JNum _) => Some "TypeError"
  | Some _ => None
  end.

(** The calls [create_price_graph] means to make on pyplot, in order, as
    far as they can be built: the axis calls need the number of days and
    the last four the last row of the table. *)
Definition chart_plan (stock days_tracked filename : string) (df : DataFrame)
  : list plot_cmd :=
  [Figure 12 8;
   Plot (map date df) (map close df) "Close Price";
   FillBetween (map date df) (map low df) (map high df)
     "Daily Range (High-Low)";
   Title (stock +:+ " Stock Price - Last " +:+ days_tracked +:+ " Days");
   XLabel "Date"; YLabel "Price ($)"; Grid; Legend]
  ++ match py_int days_tracked with
     | None => []
     | Some days =>
         [MajorFormatter "%m/%d"; MajorLocator (Z.max 1 (days / 15));
          XTicks 45;
          YLim (f64_mul (column_min (map low df)) f64_0_995)
               (f64_mul (column_max (map high df)) f64_1_005)]
         ++ match last df with
            | None => []
            | Some b =>
                [Annotate ("Latest: $" +:+ format_2f_number (close b))
                   (date b) (close b);
                 TightLayout; SaveFig filename 300; Show]
            end
     end.

(** The drawing a saved chart holds: the plan up to [tight_layout]. *)
Definition chart_image (stock days_tracked filename : string) (df : DataFrame)
  : list plot_cmd :=
  firstn 14 (chart_plan stock days_tracked filename df).

(** A reply that carries the bars [rs], dated [ds]. *)
Definition good_reply (r : response) (rs : list raw_bar) (ds : list datetime)
  : Prop :=
  status_code r = 200
  /\ exists fields items,
       json_body r = Some (JObj fields)
       /\ dict_get "results" fields = Some (JArr items)
       /\ items <> []
       /\ raws_of_items items = Some rs
       /\ dates_of rs = Some ds.

(** A reply with status 200 whose body is an object holding, under
    [results], the non-empty array of documented bars [rs]. *)
Definition reply_with_bars (r : response) (rs : list raw_bar) : Prop :=
  status_code r = 200
  /\ exists fields items,
       json_body r = Some (JObj fields)
       /\ dict_get "results" fields = Some (JArr items)
       /\ items <> []
       /\ raws_of_items items = Some rs.

(** Neither the disk, for the text table, nor the plotting backend
    fails. *)
Definition healthy (w : world) : Prop :=
  open_fault w "stock_data.txt" = None
  /\ (forall i, write_fault w i = None)
  /\ close_fault w = None
  /\ forall i, plt_fault w i = None.

(** [p] is a beginning of [s]. *)
Definition str_prefix (p s : string) : Prop := exists rest, s = p +:+ rest.

(** The width a row takes: each text at least as wide as its column, five
    blanks between the columns and the newline. *)
Definition row_width (b : bar) : nat :=
  (Nat.max 12 (String.length (date_str b))
   + Nat.max 8 (String.length (str_of_number (open b)))
   + Nat.max 8 (String.length (str_of_number (high b)))
   + Nat.max 8 (String.length (str_of_number (low b)))
   + Nat.max 8 (String.length (str_of_number (close b)))
   + Nat.max 12 (String.length (str_of_number (volume b)))
   + 6)%nat.

(** Every text of the row fits the column the format gives it. *)
Definition fits_columns (b : bar) : Prop :=
  (String.length (date_str b) <= 12
   /\ String.length (str_of_number (open b)) <= 8
   /\ String.length (str_of_number (high b)) <= 8
   /\ String.length (str_of_number (low b)) <= 8
   /\ String.length (str_of_number (close b)) <= 8
   /\ String.length (str_of_number (volume b)) <= 12)%nat.

(** The same world with another key in the environment and another
    network. *)
Definition rekey (k : string) (nt : request -> reply) (w : world) : world :=
  mk_world (Some k) (clock w) nt (plt_fault w) (open_fault w)
    (write_fault w) (close_fault w) (savefig_cut w)
    (stdin w) (ticks w) (console w) (files w)
    (sent w) (canvas w) (plt_calls w) (writes w).

(** Two worlds that agree on everything but the key of the environment,
    the network and the requests sent. *)
Definition same_view (w1 w2 : world) : Prop :=
  clock w1 = clock w2 /\ plt_fault w1 = plt_fault w2
  /\ open_fault w1 = open_fault w2 /\ write_fault w1 = write_fault w2
  /\ close_fault w1 = close_fault w2 /\ savefig_cut w1 = savefig_cut w2
  /\ stdin w1 = stdin w2
  /\ ticks w1 = ticks w2 /\ console w1 = console w2 /\ files w1 = files w2
  /\ canvas w1 = canvas w2 /\ plt_calls w1 = plt_calls w2
  /\ writes w1 = writes w2.

(** The network of [w2] answers a request made with the key [k2] as the
    network of [w1] answers the same request made with [k1]. *)
Definition answers_alike (k1 k2 : string) (w1 w2 : world) : Prop :=
  forall url,
    net w1 (mk_request url (request_params k1))
    = net w2 (mk_request url (request_params k2)).

(** Two computations that end alike and keep two such worlds alike. *)
Definition related (k1 k2 : string) {A} (m1 m2 : M A) : Prop :=
  forall w1 w2,
    same_view w1 w2 -> answers_alike k1 k2 w1 w2 ->
    fst (m1 w1) = fst (m2 w2)
    /\ same_view (snd (m1 w1)) (snd (m2 w2))
    /\ answers_alike k1 k2 (snd (m1 w1)) (snd (m2 w2)).

(** Replies with status 200 whose body is JSON and has no key
    [results]: the value [null], and a list that holds the string
    ['results']. *)
Definition null_body : response := mk_response 200 "null" (Some JNull).

Definition results_listed : response :=
  mk_response 200 "[...]" (Some (JArr [JStr "results"])).

(** A reply with status 200 whose body is a page, not JSON. *)
Definition not_json : response :=
  mk_response 200 "<html>Service Unavailable</html>" None.

(** * Properties *)

#[local] Arguments strftime_ymd : simpl never.
#[local] Arguments strftime_ymd_hms : simpl never.
#[local] Arguments py_int : simpl never.
#[local] Arguments py_repr : simpl never.
#[local] Arguments sub_days : simpl never.
#[local] Arguments py_upper : simpl never.
#[local] Arguments py_strip : simpl never.
#[local] Arguments str_of_int : simpl never.
#[local] Arguments request_url : simpl never.
#[local] Arguments String.append : simpl never.
#[local] Arguments format_2f_number : simpl never.
#[local] Arguments f64_mul : simpl never.
#[local] Arguments column_min : simpl never.
#[local] Arguments column_max : simpl never.
#[local] Arguments row_line : simpl never.
#[local] Arguments table_header : simpl never.
#[local] Arguments str_repeat : simpl never.
#[local] Arguments Z.div : simpl never.
#[local] Arguments Z.max : simpl never.

(** ** The calendar *)

Lemma all_from_spec (k : nat) : forall (n : Z) (t : Z -> bool),
  all_from k n t = true -> forall i, n <= i < n + Z.of_nat k -> t i = true.
Proof.
  induction k as [|k IH]; intros n t H i Hi; [lia|].
  cbn [all_from] in H. destruct (t n) eqn:E; [|discriminate].
  destruct (Z.eq_dec i n) as [->|Hne]; [exact E|].
  apply (IH _ _ H). lia.
Qed.

Lemma month_day_spec (leap : bool) (n : Z) :
  0 <= n < (if leap then 366 else 365) ->
  month_day_ok leap n = true.
Proof.
  intros Hn.
  assert (H : all_from 366 0 (month_day_ok true) = true
              /\ all_from 365 0 (month_day_ok false) = true)
    by (split; vm_compute; reflexivity).
  destruct H as [Ht Hf]. destruct leap.
  - apply (all_from_spec _ _ _ Ht). lia.
  - apply (all_from_spec _ _ _ Hf). lia.
Qed.

Lemma is_leap_true y :
  is_leap y = true -> y mod 4 = 0 /\ (y mod 100 <> 0 \/ y mod 400 = 0).
Proof.
  unfold is_leap.
  rewrite andb_true_iff, orb_true_iff, negb_true_iff, !Z.eqb_eq, Z.eqb_neq.
  tauto.
Qed.

Lemma is_leap_false y :
  is_leap y = false -> y mod 4 <> 0 \/ (y mod 100 = 0 /\ y mod 400 <> 0).
Proof.
  unfold is_leap.
  rewrite andb_false_iff, orb_false_iff, negb_false_iff, !Z.eqb_eq, !Z.eqb_neq.
  tauto.
Qed.

(** The year and the day of the year that [ord2ymd] finds. *)
Lemma ord2ymd_year n :
  1 <= n ->
  exists y r,
    1 <= y /\ 0 <= r < (if is_leap y then 366 else 365) /\
    days_before_year y + r + 1 = n /\
    ord2ymd n = (let '(m, d) := month_day (is_leap y) r in (y, m, d)).
Proof.
  intros Hn. unfold ord2ymd, DI400Y, DI100Y, DI4Y.
  set (n0 := n - 1).
  set (n400 := n0 / 146097). set (r400 := n0 mod 146097).
  set (n100 := r400 / 36524). set (r100 := r400 mod 36524).
  set (n4 := r100 / 1461). set (r4 := r100 mod 1461).
  set (n1 := r4 / 365). set (r1 := r4 mod 365).
  assert (H400 : n0 = 146097 * n400 + r400 /\ 0 <= r400 < 146097)
    by (subst n400 r400; split;
        [apply Z.div_mod; lia | apply Z.mod_pos_bound; lia]).
  assert (H100 : r400 = 36524 * n100 + r100 /\ 0 <= r100 < 36524)
    by (subst n100 r100; split;
        [apply Z.div_mod; lia | apply Z.mod_pos_bound; lia]).
  assert (H4 : r100 = 1461 * n4 + r4 /\ 0 <= r4 < 1461)
    by (subst n4 r4; split;
        [apply Z.div_mod; lia | apply Z.mod_pos_bound; lia]).
  assert (H1 : r4 = 365 * n1 + r1 /\ 0 <= r1 < 365)
    by (subst n1 r1; split;
        [apply Z.div_mod; lia | apply Z.mod_pos_bound; lia]).
  assert (Hn0 : n0 = n - 1) by reflexivity.
  clearbody n0 n400 r400 n100 r100 n4 r4 n1 r1.
  destruct ((n1 =? 4) || (n100 =? 4)) eqn:E.
  - apply orb_true_iff in E. rewrite !Z.eqb_eq in E.
    exists (n400 * 400 + 1 + n100 * 100 + n4 * 4 + n1 - 1), 365.
    assert (L : is_leap (n400 * 400 + 1 + n100 * 100 + n4 * 4 + n1 - 1) = true).
    { unfold is_leap.
      rewrite andb_true_iff, orb_true_iff, negb_true_iff, !Z.eqb_eq, Z.eqb_neq.
      Z.div_mod_to_equations; lia. }
    rewrite L. split; [lia|]. split; [lia|]. split.
    + unfold days_before_year. Z.div_mod_to_equations; lia.
    + reflexivity.
  - apply orb_false_iff in E. rewrite !Z.eqb_neq in E.
    exists (n400 * 400 + 1 + n100 * 100 + n4 * 4 + n1), r1.
    assert (L : is_leap (n400 * 400 + 1 + n100 * 100 + n4 * 4 + n1)
                = (n1 =? 3) && (negb (n4 =? 24) || (n100 =? 3))).
    { destruct (is_leap _) eqn:EL;
        [apply is_leap_true in EL | apply is_leap_false in EL];
        destruct (Z.eqb_spec n1 3), (Z.eqb_spec n4 24), (Z.eqb_spec n100 3);
        cbn; try reflexivity; exfalso; Z.div_mod_to_equations; lia. }
    rewrite L. split; [lia|]. split.
    { destruct (Z.eqb_spec n1 3), (Z.eqb_spec n4 24), (Z.eqb_spec n100 3);
        cbn; lia. }
    split.
    + unfold days_before_year. Z.div_mod_to_equations; lia.
    + unfold month_day. destruct (_ <? _); reflexivity.
Qed.

Lemma days_before_year_mono y1 y2 :
  y1 <= y2 -> days_before_year y1 <= days_before_year y2.
Proof. unfold days_before_year. intros. Z.div_mod_to_equations; lia. Qed.

Lemma days_before_year_next y :
  days_before_year (y + 1)
  = days_before_year y + (if is_leap y then 366 else 365).
Proof.
  unfold days_before_year.
  destruct (is_leap y) eqn:E;
    [apply is_leap_true in E | apply is_leap_false in E];
    Z.div_mod_to_equations; lia.
Qed.

(** [ord2ymd] yields a date of the calendar, and [ymd2ord] leads back. *)
Lemma ord2ymd_spec n :
  1 <= n ->
  let '(y, m, d) := ord2ymd n in
  1 <= y /\ 1 <= m <= 12 /\ 1 <= d <= days_in_month y m /\ ymd2ord y m d = n
  /\ days_before_year y < n <= days_before_year (y + 1).
Proof.
  intros Hn. destruct (ord2ymd_year n Hn) as (y & r & Hy & Hr & Hd & ->).
  pose proof (month_day_spec (is_leap y) r Hr) as Hok.
  unfold month_day_ok in Hok. destruct (month_day (is_leap y) r) as [m d].
  rewrite !andb_true_iff, !Z.leb_le, Z.eqb_eq in Hok.
  destruct Hok as ((((Hm1 & Hm2) & Hd1) & Hd2) & Hsum).
  rewrite days_before_year_next.
  unfold days_in_month, ymd2ord, days_before_month.
  repeat split; lia.
Qed.

Lemma ord2ymd_year_bound n :
  1 <= n <= MAXORDINAL -> 1 <= (ord2ymd n).1.1 <= 9999.
Proof.
  intros [Hn Hmax]. pose proof (ord2ymd_spec n Hn) as H.
  destruct (ord2ymd n) as [[y m] d]. cbn.
  destruct H as (Hy & _ & _ & _ & Hlt & _). split; [exact Hy|].
  destruct (Z_le_gt_dec y 9999) as [|Hbig]; [assumption|exfalso].
  pose proof (days_before_year_mono 10000 y ltac:(lia)) as Hm.
  change (days_before_year 10000) with 3652059 in Hm.
  unfold MAXORDINAL in Hmax. lia.
Qed.

(** ** Reasoning on computations *)

Create HintDb preserves.
Create HintDb escapes.

Ltac unfold_prims :=
  unfold iloc_last, response_json, int_of_str in *;
  unfold print, input, getenv_key, datetime_now, requests_get, plt,
    plt_savefig, f_open, f_write, f_close, lift_option,
    contains_results, getitem_results, raise, beyond,
    py_exit, mret, M_ret in *.

Section Preserves.
Context {B : Type} (proj : world -> B).

Lemma preserves_bind {A C} (m : M A) (f : A -> M C) :
  preserves proj m -> (forall a, preserves proj (f a)) ->
  preserves proj (m ≫= f).
Proof.
  intros Hm Hf w. unfold mbind, M_bind. specialize (Hm w).
  destruct (m w) as [[a| | |] w']; cbn in *; try assumption.
  rewrite <- Hm. apply Hf.
Qed.

Lemma preserves_try_except {A} (body : M A) (handler : exn -> M A) :
  preserves proj body -> (forall e, preserves proj (handler e)) ->
  preserves proj (try_except body handler).
Proof.
  intros Hm Hf w. unfold try_except. specialize (Hm w).
  destruct (body w) as [[a| e | |] w']; cbn in *; try assumption.
  rewrite <- Hm. apply Hf.
Qed.

Lemma preserves_with_exit {A} (body : M A) (exit : M unit) :
  preserves proj body -> preserves proj exit ->
  preserves proj (with_exit body exit).
Proof.
  intros Hm Hf w. unfold with_exit. specialize (Hm w).
  destruct (body w) as [[a| e | |] w']; cbn in *; try assumption;
    specialize (Hf w'); destruct (exit w') as [[[]| e' | |] w'']; cbn in *;
    congruence.
Qed.
End Preserves.

Ltac preserve_leaf :=
  let w := fresh "w" in
  intros w; unfold_prims; cbn;
  repeat (match goal with
          | |- context [match ?x with _ => _ end] =>
              lazymatch x with
              | context [match _ with _ => _ end] => fail
              | _ => destruct x
              end
          end; cbn);
  reflexivity.

Lemma write_rows_preserves {B} (proj : world -> B) filename rows :
  (forall s, preserves proj (f_write filename s)) ->
  preserves proj (write_rows filename rows).
Proof.
  intros H. induction rows as [|r rows IH]; cbn [write_rows].
  - preserve_leaf.
  - apply preserves_bind; [apply H | intros _; exact IH].
Qed.

Ltac preserve :=
  lazymatch goal with
  | |- preserves _ (write_rows _ _) =>
      apply write_rows_preserves; intros; preserve_leaf
  | |- preserves _ (mbind _ _) =>
      apply preserves_bind; [preserve | intros; cbv beta zeta; preserve]
  | |- preserves _ (try_except _ _) =>
      apply preserves_try_except; [preserve | intros; cbv beta zeta; preserve]
  | |- preserves _ (with_exit _ _) =>
      apply preserves_with_exit; [preserve | preserve]
  | |- preserves _ (if ?b then _ else _) => destruct b; preserve
  | |- preserves _ (match ?x with _ => _ end) => destruct x; preserve
  | |- _ => first [assumption | solve [auto 1 with preserves] | preserve_leaf]
  end.

Lemma no_escape_bind {A C} (m : M A) (f : A -> M C) :
  no_escape m -> (forall a, no_escape (f a)) -> no_escape (m ≫= f).
Proof.
  intros Hm Hf w. unfold mbind, M_bind. specialize (Hm w).
  destruct (m w) as [[a| | |] w']; cbn in *; try assumption. apply Hf.
Qed.

Lemma no_escape_with_exit {A} (body : M A) (exit : M unit) :
  no_escape body -> no_escape exit -> no_escape (with_exit body exit).
Proof.
  intros Hm Hf w. unfold with_exit. specialize (Hm w).
  destruct (body w) as [[a| e | |] w']; cbn in *; try assumption;
    specialize (Hf w'); destruct (exit w') as [[[]| e' | |] w'']; cbn in *;
    assumption.
Qed.

Ltac escape_leaf :=
  let w := fresh "w" in
  intros w; unfold_prims; cbn;
  repeat (match goal with
          | |- context [match ?x with _ => _ end] =>
              lazymatch x with
              | context [match _ with _ => _ end] => fail
              | _ => destruct x
              end
          end; cbn);
  exact I.

Ltac escape :=
  lazymatch goal with
  | |- no_escape (mbind _ _) =>
      apply no_escape_bind; [escape | intros; cbv beta zeta; escape]
  | |- no_escape (with_exit _ _) =>
      apply no_escape_with_exit; [escape | escape]
  | |- no_escape (if ?b then _ else _) => destruct b; escape
  | |- no_escape (match ?x with _ => _ end) => destruct x; escape
  | |- _ => first [assumption | solve [auto 1 with escapes] | escape_leaf]
  end.

(** What [try ... except Exception as e: print(...)] does with each way
    its body can end. *)
Lemma try_except_print (body : M unit) (msg : exn -> string) (w : world) :
  no_escape body ->
  match body w with
  | (Returned _, w') =>
      try_except body (fun e => print (msg e)) w = (Returned tt, w')
  | (Raised e, w') =>
      try_except body (fun e => print (msg e)) w
      = (Returned tt, set_console (console w' ++ [msg e +:+ newline]) w')
  | _ => False
  end.
Proof.
  intros H. specialize (H w). unfold try_except.
  destruct (body w) as [[[]| e | |] w']; cbn in *; try reflexivity; exact H.
Qed.

Lemma write_rows_no_escape filename rows : no_escape (write_rows filename rows).
Proof. induction rows as [|r rows IH]; cbn [write_rows]; escape. Qed.
#[local] Hint Resolve write_rows_no_escape : escapes.

Lemma write_table_no_escape rows filename : no_escape (write_table rows filename).
Proof. unfold write_table. escape. Qed.

Lemma draw_chart_no_escape stock days rows filename :
  no_escape (draw_chart stock days rows filename).
Proof. unfold draw_chart. escape. Qed.

(** C7.  [save_to_text_file] always returns, whatever table, file name
    and world it is given.  Without a table it prints "No data to save"
    and changes nothing but the console, so no file is created.  With a
    table, whatever exception opening, writing or closing raises is
    caught: the function prints "Error saving file: " and the text of
    the exception, then returns. *)
Theorem save_to_text_file_never_raises
    (df : option DataFrame) (rows : DataFrame) (filename : string) (w : world) :
  fst (save_to_text_file df filename w) = Returned tt
  /\ save_to_text_file None filename w
     = (Returned tt,
        set_console (console w ++ ["No data to save" +:+ newline]) w)
  /\ match write_table rows filename w with
     | (Returned _, w') =>
         save_to_text_file (Some rows) filename w = (Returned tt, w')
     | (Raised e, w') =>
         save_to_text_file (Some rows) filename w
         = (Returned tt,
            set_console
              (console w' ++ ["Error saving file: " +:+ exn_text e +:+ newline])
              w')
     | _ => False
     end.
Proof.
  assert (Hbody : forall rs,
    match write_table rs filename w with
     | (Returned _, w') =>
         save_to_text_file (Some rs) filename w = (Returned tt, w')
     | (Raised e, w') =>
         save_to_text_file (Some rs) filename w
         = (Returned tt,
            set_console
              (console w' ++ ["Error saving file: " +:+ exn_text e +:+ newline])
              w')
     | _ => False
     end).
  { intros rs.
    exact (try_except_print (write_table rs filename)
             (fun e => "Error saving file: " +:+ exn_text e) w
             (write_table_no_escape rs filename)). }
  split; [|split; [reflexivity | apply Hbody]].
  destruct df as [rs|]; [|reflexivity].
  specialize (Hbody rs).
  destruct (write_table rs filename w) as [[[]| e | |] w'];
    try contradiction; rewrite Hbody; reflexivity.
Qed.

Lemma write_table_open_fails rows filename w e :
  open_fault w filename = Some e ->
  write_table rows filename w = (Raised e, w).
Proof.
  intros H. unfold write_table, mbind, M_bind, f_open. rewrite H. reflexivity.
Qed.

Lemma last_map {A B} (f : A -> B) (l : list A) :
  last (map f l) = option_map f (last l).
Proof.
  induction l as [|a [|b l] IH]; try reflexivity.
  change (last (map f (a :: b :: l))) with (last (map f (b :: l))).
  rewrite IH. reflexivity.
Qed.

Ltac step_plt :=
  match goal with
  | |- context [plt_fault ?w ?n] =>
      lazymatch n with
      | context [plt_fault] => fail
      | _ => destruct (plt_fault w n) eqn:?
      end
  end; cbn.

Lemma two_digit_text_spec n : 0 <= n < 100 -> two_digit_text n = true.
Proof.
  intros Hn.
  assert (H : all_from 100 0 two_digit_text = true) by (vm_compute; reflexivity).
  apply (all_from_spec _ _ _ H). lia.
Qed.

Lemma append_assoc (a b c : string) : (a +:+ b) +:+ c = a +:+ (b +:+ c).
Proof.
  induction a as [|x a IH]; [reflexivity|].
  change (String x ((a +:+ b) +:+ c) = String x (a +:+ (b +:+ c))).
  now rewrite IH.
Qed.

Lemma fixed2_two_decimals k : two_decimals (fixed2 k).
Proof.
  unfold fixed2.
  pose proof (two_digit_text_spec (k mod 100) (Z.mod_pos_bound k 100 eq_refl)) as H.
  unfold two_digit_text in H.
  destruct (zfill 2 (dec_of_nonneg (k mod 100))) as [|d1 [|d2 [|]]]; try discriminate.
  apply andb_true_iff in H. destruct H as [H1 H2].
  exists (dec_of_nonneg (k / 100)), d1, d2. repeat split; assumption.
Qed.

Lemma format_2f_two_decimals x :
  is_finite x = true -> two_decimals (format_2f x).
Proof.
  destruct x as [s|s| |s m e]; cbn; try discriminate; intros _.
  - exists (if s then "-0" else "0"), "0"%char, "0"%char.
    destruct s; repeat split; reflexivity.
  - destruct (fixed2_two_decimals (cents m e)) as (wh & d1 & d2 & -> & H1 & H2).
    exists ((if s then "-" else "") +:+ wh), d1, d2.
    rewrite append_assoc. repeat split; assumption.
Qed.

Lemma draw_chart_canvas (stock days filename : string) (rows : DataFrame)
    (w : world) (b : bar) :
  last rows = Some b ->
  exists drawn,
    canvas (snd (draw_chart stock days rows filename w)) = (canvas w ++ drawn)%list
    /\ (forall l x y, In (Annotate l x y) drawn ->
         l = "Latest: $" +:+ format_2f_number (close b)
         /\ x = date b /\ y = close b).
Proof.
  intros Hlast.
  unfold draw_chart, mbind, M_bind, iloc_last. rewrite !last_map, Hlast.
  unfold plt, plt_savefig, int_of_str, lift_option, raise, mret, M_ret. cbn.
  destruct (py_int days) as [n|]; cbn.
  all: repeat step_plt.
  all: repeat rewrite <- app_assoc; cbn [app].
  all: eexists; (split; [try reflexivity; symmetry; apply app_nil_r|]).
  all: cbn [In]; intros l x y HIn; intuition (try discriminate);
    match goal with
    | H : Annotate _ _ _ = Annotate _ _ _ |- _ =>
        injection H; intros; subst; reflexivity
    end.
Qed.

Lemma draw_chart_annotates (stock days filename : string) (rows : DataFrame)
    (w : world) (b : bar) (drawn : list plot_cmd) :
  last rows = Some b ->
  py_int days <> None ->
  (forall i, (i < 13)%nat -> plt_fault w (i + plt_calls w)%nat = None) ->
  canvas (snd (draw_chart stock days rows filename w)) = (canvas w ++ drawn)%list ->
  In (Annotate ("Latest: $" +:+ format_2f_number (close b)) (date b) (close b))
     drawn.
Proof.
  intros Hlast Hnum Hok.
  pose proof (Hok 0%nat ltac:(lia)) as H0; pose proof (Hok 1%nat ltac:(lia)) as H1;
  pose proof (Hok 2%nat ltac:(lia)) as H2; pose proof (Hok 3%nat ltac:(lia)) as H3;
  pose proof (Hok 4%nat ltac:(lia)) as H4; pose proof (Hok 5%nat ltac:(lia)) as H5;
  pose proof (Hok 6%nat ltac:(lia)) as H6; pose proof (Hok 7%nat ltac:(lia)) as H7;
  pose proof (Hok 8%nat ltac:(lia)) as H8; pose proof (Hok 9%nat ltac:(lia)) as H9;
  pose proof (Hok 10%nat ltac:(lia)) as H10; pose proof (Hok 11%nat ltac:(lia)) as H11;
  pose proof (Hok 12%nat ltac:(lia)) as H12.
  cbn [Nat.add] in *. clear Hok.
  unfold draw_chart, mbind, M_bind, iloc_last. rewrite !last_map, Hlast.
  unfold plt, plt_savefig, int_of_str, lift_option, raise, mret, M_ret. cbn.
  destruct (py_int days) as [n|]; [cbn | congruence].
  rewrite H0; cbn; rewrite H1; cbn; rewrite H2; cbn; rewrite H3; cbn;
  rewrite H4; cbn; rewrite H5; cbn; rewrite H6; cbn; rewrite H7; cbn;
  rewrite H8; cbn; rewrite H9; cbn; rewrite H10; cbn; rewrite H11; cbn;
  rewrite H12; cbn.
  repeat step_plt.
  all: repeat rewrite <- app_assoc; cbn [app].
  all: intros H; apply app_inv_head in H; subst drawn; cbn [In]; tauto.
Qed.

Lemma create_price_graph_canvas stock days rows filename w :
  canvas (snd (create_price_graph stock days (Some rows) filename w))
  = canvas (snd (draw_chart stock days rows filename w)).
Proof.
  pose proof (try_except_print (draw_chart stock days rows filename)
                (fun e => "Error creating graph: " +:+ exn_text e) w
                (draw_chart_no_escape stock days rows filename)) as H.
  unfold create_price_graph.
  destruct (draw_chart stock days rows filename w) as [[[]| e | |] w'];
    try contradiction; rewrite H; reflexivity.
Qed.

(** C9.  For a table whose last bar is [b], every annotation that
    [create_price_graph] puts on the chart carries the text "Latest: $"
    followed by [format(close, '.2f')] of [b] and is anchored at the date
    and the close of [b]; when the days are numeric and the first
    thirteen pyplot calls go through, that annotation is on the chart.
    For a finite close the text ends in a point and two digits. *)
Theorem annotation_shows_last_close (stock days filename : string)
    (rows : DataFrame) (w : world) (b : bar) :
  last rows = Some b ->
  exists drawn,
    canvas (snd (create_price_graph stock days (Some rows) filename w))
    = (canvas w ++ drawn)%list
    /\ (forall l x y, In (Annotate l x y) drawn ->
         l = "Latest: $" +:+ format_2f_number (close b)
         /\ x = date b /\ y = close b)
    /\ (py_int days <> None ->
        (forall i, (i < 13)%nat -> plt_fault w (i + plt_calls w)%nat = None) ->
        In (Annotate ("Latest: $" +:+ format_2f_number (close b))
              (date b) (close b)) drawn)
    /\ (is_finite (float_of_number (close b)) = true ->
        two_decimals (format_2f_number (close b))).
Proof.
  intros Hlast. rewrite create_price_graph_canvas.
  destruct (draw_chart_canvas stock days filename rows w b Hlast)
    as (drawn & Hc & Hall).
  exists drawn. repeat split; try assumption;
    try (apply (Hall l x y); assumption).
  - intros Hnum Hok.
    apply (draw_chart_annotates stock days filename rows w b drawn); assumption.
  - apply format_2f_two_decimals.
Qed.

(** C8.  [create_price_graph] always returns.  Without a table it prints
    "No data to graph" and changes nothing but the console, so no chart
    file is made.  With a table, whatever exception building, saving or
    showing the chart raises is caught: the function prints
    "Error creating graph: " and the text of the exception, then
    returns. *)
Theorem create_price_graph_never_raises
    (stock days filename : string) (df : option DataFrame) (rows : DataFrame)
    (w : world) :
  fst (create_price_graph stock days df filename w) = Returned tt
  /\ create_price_graph stock days None filename w
     = (Returned tt,
        set_console (console w ++ ["No data to graph" +:+ newline]) w)
  /\ match draw_chart stock days rows filename w with
     | (Returned _, w') =>
         create_price_graph stock days (Some rows) filename w = (Returned tt, w')
     | (Raised e, w') =>
         create_price_graph stock days (Some rows) filename w
         = (Returned tt,
            set_console
              (console w'
               ++ ["Error creating graph: " +:+ exn_text e +:+ newline])
              w')
     | _ => False
     end.
Proof.
  assert (Hbody : forall rs,
    match draw_chart stock days rs filename w with
     | (Returned _, w') =>
         create_price_graph stock days (Some rs) filename w = (Returned tt, w')
     | (Raised e, w') =>
         create_price_graph stock days (Some rs) filename w
         = (Returned tt,
            set_console
              (console w'
               ++ ["Error creating graph: " +:+ exn_text e +:+ newline])
              w')
     | _ => False
     end).
  { intros rs.
    exact (try_except_print (draw_chart stock days rs filename)
             (fun e => "Error creating graph: " +:+ exn_text e) w
             (draw_chart_no_escape stock days rs filename)). }
  split; [|split; [reflexivity | apply Hbody]].
  destruct df as [rs|]; [|reflexivity].
  specialize (Hbody rs).
  destruct (draw_chart stock days rs filename w) as [[[]| e | |] w'];
    try contradiction; rewrite Hbody; reflexivity.
Qed.

(** ** The fetch *)

Lemma get_stock_data_run (api_key ticker days : string) (w : world) :
  get_stock_data api_key ticker days w =
  match py_int days with
  | None =>
      (Raised (ValueError ("invalid literal for int() with base 10: "
                           +:+ py_repr days)),
       set_ticks (S (S (ticks w))) w)
  | Some n =>
      match sub_days (clock w (S (ticks w))) n with
      | None =>
          (Raised (OverflowError "date value out of range"),
           set_ticks (S (S (ticks w))) w)
      | Some start =>
          let rq := request_of w api_key ticker start in
          let w1 := set_sent (sent w ++ [rq]) (set_ticks (S (S (ticks w))) w) in
          match net w rq with
          | Answer r => read_response r w1
          | NetworkError e => (Raised e, w1)
          end
      end
  end.
Proof.
  unfold get_stock_data, mbind, M_bind, datetime_now, int_of_str, lift_option,
    requests_get, raise, mret, M_ret, request_of. cbn.
  destruct (py_int days) as [n|]; [|reflexivity]. cbn.
  destruct (sub_days _ n) as [start|]; [|reflexivity]. cbn.
  destruct (net w _) as [r|e]; cbn; [|reflexivity].
  destruct (read_response r _) as [[] ?]; reflexivity.
Qed.

Lemma read_response_bad (r : response) (w : world) :
  bad_reply r ->
  read_response r w
  = (Returned None, set_console (console w ++ [error_message r]) w).
Proof.
  unfold bad_reply, read_response, error_message.
  destruct (Z.eqb_spec (status_code r) 200) as [E|E].
  - intros [H|(data & Hb & Hr)]; [contradiction|].
    unfold mbind, M_bind, response_json, lift_option. rewrite Hb. cbn.
    destruct data as [| | | |items|fields]; cbn in Hr; try discriminate;
      cbn.
    + apply negb_true_iff in Hr. rewrite Hr. reflexivity.
    + apply negb_true_iff in Hr. rewrite Hr. reflexivity.
    + destruct (dict_get "results" fields) as [v|]; cbn; [|reflexivity].
      apply negb_true_iff in Hr. rewrite Hr. reflexivity.
  - intros _. unfold mbind, M_bind, print, mret, M_ret. cbn.
    rewrite <- !append_assoc. reflexivity.
Qed.

#[local] Arguments get_stock_data : simpl never.
#[local] Arguments report : simpl never.
#[local] Arguments read_response : simpl never.

(** ** The main block *)

(** A run of the main block either stops before the fetch, leaving
    network, disk and canvas alone, or reaches the fetch with the key
    found, the ticker in upper case and the line of days, having touched
    only the console and the input. *)
Lemma main_run (w : world) :
  (sent (snd (main w)) = sent w /\ files (snd (main w)) = files w
   /\ canvas (snd (main w)) = canvas w
   /\ (fst (main w) = Exited \/ exists e, fst (main w) = Raised e))
  \/ exists key days c s,
       main w =
       (get_stock_data key (py_upper (ticker_line w)) days
        ≫= report (py_upper (ticker_line w)) days)
         (set_stdin s (set_console c w)).
Proof.
  unfold main, get_api_key, ticker_line, mbind, M_bind, print, input, getenv_key,
    py_exit, mret, M_ret. cbn.
  destruct (opt_str_truthy (env_key w)) eqn:Ekey; cbn.
  - destruct (stdin w) as [|tkr [|days rest]] eqn:Ein;
      repeat (progress (rewrite ?Ekey, ?Ein; cbn)).
    + left. repeat split; eauto.
    + left. repeat split; eauto.
    + right. exists (default "" (env_key w)), days. do 2 eexists. reflexivity.
  - destruct (stdin w) as [|line rest] eqn:Ein;
      repeat (progress (rewrite ?Ekey, ?Ein; cbn)).
    + left. repeat split; eauto.
    + destruct (str_truthy (py_strip line)) eqn:Eline;
        repeat (progress (rewrite ?Ekey, ?Ein, ?Eline; cbn)).
      * destruct rest as [|tkr [|days rest]]; cbn.
        -- left. repeat split; eauto.
        -- left. repeat split; eauto.
        -- right. exists (py_strip line), days. do 2 eexists. reflexivity.
      * left. repeat split; eauto.
Qed.

Lemma read_response_sent r : preserves sent (read_response r).
Proof. unfold read_response, DataFrame_of_results. preserve. Qed.

Lemma report_sent stock days df : preserves sent (report stock days df).
Proof.
  unfold report, save_to_text_file, create_price_graph, write_table, draw_chart.
  preserve.
Qed.

Lemma snoc_neq {A} (l : list A) (x : A) : l <> (l ++ [x])%list.
Proof.
  intros H. apply (f_equal (@length A)) in H.
  rewrite length_app in H. cbn in H. lia.
Qed.

(** Once a request went out, what the run does is fixed by the reply. *)
Lemma main_request (w : world) (rq : request) :
  sent (snd (main w)) = (sent w ++ [rq])%list ->
  exists key days start c s,
    rq = request_of w key (py_upper (ticker_line w)) start
    /\ main w =
       match net w rq with
       | Answer r =>
           (read_response r ≫= report (py_upper (ticker_line w)) days)
             (world_at_reply w rq c s)
       | NetworkError e => (Raised e, world_at_reply w rq c s)
       end.
Proof.
  intros Hsent.
  destruct (main_run w) as [(Hs & _)|(key & days & c & s & Hrun)].
  { rewrite Hs in Hsent. destruct (snoc_neq _ _ Hsent). }
  rewrite Hrun in Hsent |- *. clear Hrun.
  unfold mbind at 1, M_bind at 1 in Hsent. unfold mbind at 1, M_bind at 1.
  rewrite get_stock_data_run in Hsent |- *. cbn in Hsent |- *.
  destruct (py_int days) as [n|]; cbn in Hsent;
    [|destruct (snoc_neq _ _ Hsent)].
  destruct (sub_days _ n) as [start|]; cbn in Hsent;
    [|destruct (snoc_neq _ _ Hsent)].
  set (rq0 := request_of _ key _ start) in *.
  assert (rq0 = request_of w key (py_upper (ticker_line w)) start) as Hrq0
    by reflexivity.
  change (set_sent (sent w ++ [rq0]) _) with (world_at_reply w rq0 c s) in *.
  assert (Hrq : rq = rq0).
  { destruct (net w rq0) as [r0|e0]; cbn in Hsent.
    - pose proof (preserves_bind sent (read_response r0)
                    (report (py_upper (ticker_line w)) days)
                    (read_response_sent r0)
                    (fun a => report_sent _ _ a) (world_at_reply w rq0 c s)) as Hp.
      unfold mbind, M_bind in Hp.
      destruct (read_response r0 _) as [[df| | |] w2]; cbn in Hp, Hsent;
        rewrite Hp in Hsent; cbn in Hsent;
        apply app_inj_tail in Hsent; symmetry; apply Hsent.
    - apply app_inj_tail in Hsent. symmetry; apply Hsent. }
  exists key, days, start, c, s. subst rq.
  split; [exact Hrq0|].
  destruct (net w rq0) as [r0|e0]; [|reflexivity].
  unfold mbind, M_bind.
  destruct (read_response r0 _) as [[df| | |] w2]; reflexivity.
Qed.

(** X15.  In a run of the main block whose request is answered by a
    response that is not 200, or is 200 with a body that is an object
    without the key [results] or with a falsy value under it (the empty
    array is one), a list that does not hold the string ['results'], or
    a string that does not contain it, the error message of
    [get_stock_data] is printed ("API Error: " with status and text, or
    "No data found in API response"), then "Failed to retrieve data";
    the run ends normally and neither the disk nor the canvas has
    changed: no text table, no chart. *)
Theorem bad_response_stops_pipeline (w : world) (rq : request) (r : response) :
  sent (snd (main w)) = (sent w ++ [rq])%list ->
  net w rq = Answer r ->
  bad_reply r ->
  fst (main w) = Returned tt
  /\ files (snd (main w)) = files w
  /\ canvas (snd (main w)) = canvas w
  /\ exists before,
       console (snd (main w))
       = (before ++ [error_message r; "Failed to retrieve data" +:+ newline])%list.
Proof.
  intros Hsent Hnet Hbad.
  destruct (main_request w rq Hsent) as (key & days & start & c & s & _ & Hrun).
  rewrite Hnet in Hrun. rewrite Hrun. unfold mbind, M_bind.
  rewrite (read_response_bad r _ Hbad). unfold report, print. cbn.
  repeat split.
  exists c. rewrite <- app_assoc. reflexivity.
Qed.

Lemma upper_char_not_lower (c : ascii) : is_lower (upper_char c) = false.
Proof. destruct c as [[] [] [] [] [] [] [] []]; reflexivity. Qed.

Lemma py_upper_no_lower (s : string) :
  forallb (fun c => negb (is_lower c)) (list_ascii_of_string (py_upper s))
  = true.
Proof.
  induction s as [|c s IH]; [reflexivity|].
  change (py_upper (String c s)) with (String (upper_char c) (py_upper s)).
  cbn [list_ascii_of_string forallb].
  rewrite upper_char_not_lower, IH. reflexivity.
Qed.

(** C10.  The URL of the request a run sends starts with the address of
    the endpoint followed by the line typed at the ticker prompt,
    converted to upper case: no lower-case letter is left in it. *)
Theorem ticker_is_sent_in_upper_case (w : world) (rq : request) :
  sent (snd (main w)) = (sent w ++ [rq])%list ->
  (exists rest,
     req_url rq = API_BASE +:+ py_upper (ticker_line w) +:+ rest)
  /\ forallb (fun c => negb (is_lower c))
       (list_ascii_of_string (py_upper (ticker_line w))) = true.
Proof.
  intros Hsent.
  destruct (main_request w rq Hsent) as (key & days & start & c & s & -> & _).
  split; [eexists; reflexivity | apply py_upper_no_lower].
Qed.

(** ** The date range *)

Lemma four_digit_text_spec y : 1000 <= y <= 9999 -> four_digit_text y = true.
Proof.
  intros Hy.
  assert (H : all_from (Z.to_nat 9000) 1000 four_digit_text = true)
    by (vm_compute; reflexivity).
  apply (all_from_spec _ _ _ H). rewrite Z2Nat.id; lia.
Qed.

Lemma two_digits_text n : 0 <= n < 100 ->
  exists a b, two_digits n = String a (String b "")
              /\ is_digit a = true /\ is_digit b = true.
Proof.
  intros Hn. pose proof (two_digit_text_spec n Hn) as H.
  unfold two_digit_text in H. unfold two_digits, str_of_int.
  destruct (Z.ltb_spec n 0); [lia|].
  destruct (zfill 2 (dec_of_nonneg n)) as [|a [|b [|]]]; try discriminate.
  apply andb_true_iff in H. destruct H. eauto.
Qed.

Lemma days_in_month_le y m : days_in_month y m <= 31.
Proof.
  unfold days_in_month, DAYS_IN_MONTH.
  destruct ((m =? 2) && is_leap y); [lia|].
  repeat match goal with
         | |- context [match ?p with _ => _ end] => destruct p
         end; lia.
Qed.

Lemma strftime_ymd_iso d :
  valid_datetime d -> 1000 <= dt_year d -> is_iso_date (strftime_ymd d) = true.
Proof.
  intros (Hy & Hm & Hd & _) Hy'.
  pose proof (days_in_month_le (dt_year d) (dt_month d)) as Hle.
  pose proof (four_digit_text_spec (dt_year d) ltac:(lia)) as H4.
  destruct (two_digits_text (dt_month d) ltac:(lia)) as (m1 & m2 & Em & Hm1 & Hm2).
  destruct (two_digits_text (dt_day d) ltac:(lia)) as (d1 & d2 & Ed & Hd1 & Hd2).
  unfold strftime_ymd, four_digit_text in *. rewrite Em, Ed.
  destruct (str_of_int (dt_year d)) as [|a [|b [|c [|e [|]]]]]; try discriminate.
  rewrite !andb_true_iff in H4. destruct H4 as (((Ha & Hb) & Hc) & He).
  unfold is_iso_date. cbv [String.append list_ascii_of_string forallb].
  rewrite Ha, Hb, Hc, He, Hm1, Hm2, Hd1, Hd2. reflexivity.
Qed.

Lemma toordinal_with_ordinal o d : 1 <= o -> toordinal (with_ordinal o d) = o.
Proof.
  intros Ho. pose proof (ord2ymd_spec o Ho) as H.
  unfold toordinal, with_ordinal. destruct (ord2ymd o) as [[y m] dd]. cbn.
  apply H.
Qed.

Lemma valid_with_ordinal o d :
  1 <= o <= MAXORDINAL -> valid_datetime d -> valid_datetime (with_ordinal o d).
Proof.
  intros Ho (_ & _ & _ & Ht). pose proof (ord2ymd_spec o ltac:(lia)) as H.
  pose proof (ord2ymd_year_bound o Ho) as Hy.
  unfold valid_datetime, with_ordinal. destruct (ord2ymd o) as [[y m] dd].
  cbn in *. intuition lia.
Qed.

Lemma with_ordinal_year_ge o d y0 :
  1 <= y0 -> days_before_year y0 < o -> y0 <= dt_year (with_ordinal o d).
Proof.
  intros Hy0 Ho.
  assert (Hnn : 0 <= days_before_year y0)
    by (unfold days_before_year; Z.div_mod_to_equations; lia).
  pose proof (ord2ymd_spec o ltac:(lia)) as H.
  unfold with_ordinal. destruct (ord2ymd o) as [[y m] dd]. cbn.
  destruct H as (_ & _ & _ & _ & _ & Hub).
  destruct (Z_le_gt_dec y0 y) as [|Hlt]; [assumption|exfalso].
  pose proof (days_before_year_mono (y + 1) y0 ltac:(lia)). lia.
Qed.

(** X16.  For a numeric lookback [n], when both readings of the clock
    fall on the same day of a year from 1000 on and the day [n] days
    earlier lies between 1000-01-01 and 9999-12-31, the request holds
    the two dates in its URL: the end date is that day, the start date
    is the day exactly [n] days before it, and both have the shape
    YYYY-MM-DD. *)
Theorem date_range_spans_days
    (w : world) (api_key ticker days_tracked : string) (n : Z) :
  let now1 := clock w (ticks w) in
  let now2 := clock w (S (ticks w)) in
  py_int days_tracked = Some n ->
  valid_datetime now1 -> valid_datetime now2 -> same_day now1 now2 ->
  1000 <= dt_year now1 ->
  ymd2ord 1000 1 1 <= toordinal now1 - n <= MAXORDINAL ->
  exists start rq,
    sent (snd (get_stock_data api_key ticker days_tracked w))
    = (sent w ++ [rq])%list
    /\ req_url rq
       = API_BASE +:+ ticker +:+ "/range/1/day/" +:+ strftime_ymd start
         +:+ "/" +:+ strftime_ymd now1
    /\ valid_datetime start
    /\ toordinal start = toordinal now1 - n
    /\ is_iso_date (strftime_ymd start) = true
    /\ is_iso_date (strftime_ymd now1) = true.
Proof.
  intros now1 now2 Hint Hv1 Hv2 (Ey & Em & Ed) Hy Hrange.
  assert (Hord : toordinal now2 = toordinal now1)
    by (unfold toordinal; rewrite Ey, Em, Ed; reflexivity).
  change (ymd2ord 1000 1 1) with 364878 in Hrange.
  assert (Hnow : 1 <= toordinal now1 <= MAXORDINAL).
  { destruct Hv1 as (Hy1 & Hm1 & Hd1 & _).
    pose proof (ord2ymd_spec 1 ltac:(lia)) as _.
    unfold toordinal, ymd2ord, days_before_month, MAXORDINAL.
    pose proof (days_before_year_mono 1 (dt_year now1) ltac:(lia)) as Hlo.
    pose proof (days_before_year_mono (dt_year now1) 9999 ltac:(lia)) as Hhi.
    change (days_before_year 1) with 0 in Hlo.
    change (days_before_year 9999) with 3651694 in Hhi.
    pose proof (days_in_month_le (dt_year now1) (dt_month now1)).
    assert (0 <= DAYS_BEFORE_MONTH (dt_month now1) <= 334
            /\ DAYS_BEFORE_MONTH (dt_month now1)
               + days_in_month (dt_year now1) (dt_month now1)
               + (if (2 <? dt_month now1) && is_leap (dt_year now1) then 1 else 0)
               <= 365 + (if is_leap (dt_year now1) then 1 else 0)) as Hdbm.
    { unfold days_in_month.
      assert (Hcases : dt_month now1 = 1 \/ dt_month now1 = 2 \/ dt_month now1 = 3
                \/ dt_month now1 = 4 \/ dt_month now1 = 5 \/ dt_month now1 = 6
                \/ dt_month now1 = 7 \/ dt_month now1 = 8 \/ dt_month now1 = 9
                \/ dt_month now1 = 10 \/ dt_month now1 = 11 \/ dt_month now1 = 12)
        by lia.
      repeat (destruct Hcases as [->|Hcases]); try rewrite Hcases;
        destruct (is_leap (dt_year now1)); cbn; lia. }
    pose proof (days_before_year_next (dt_year now1)) as Hnext.
    pose proof (days_before_year_mono (dt_year now1 + 1) 10000 ltac:(lia)) as Hhi'.
    change (days_before_year 10000) with 3652059 in Hhi'.
    destruct (is_leap (dt_year now1)), ((2 <? dt_month now1)); cbn in *; lia. }
  rewrite get_stock_data_run, Hint. fold now2 now1.
  unfold sub_days. rewrite Hord.
  unfold MAX_DELTA_DAYS.
  destruct (Z.ltb_spec 999999999 (Z.abs n)) as [Habs|_];
    [unfold MAXORDINAL in *; lia|].
  destruct (Z.ltb_spec 0 (toordinal now1 - n)) as [_|Hneg]; [|lia].
  destruct (Z.leb_spec (toordinal now1 - n) MAXORDINAL) as [_|Hbig]; [|lia].
  cbn [andb]. cbv zeta.
  set (start := with_ordinal (toordinal now1 - n) now2).
  exists start, (request_of w api_key ticker start).
  assert (Hvs : valid_datetime start)
    by (apply valid_with_ordinal; [lia | assumption]).
  split.
  { destruct (net w _) as [r|e]; [|reflexivity].
    apply read_response_sent. }
  split; [reflexivity|]. split; [exact Hvs|].
  split; [apply toordinal_with_ordinal; lia|].
  split; [|apply strftime_ymd_iso; assumption].
  apply strftime_ymd_iso; [exact Hvs|].
  apply with_ordinal_year_ge; [lia|].
  change (days_before_year 1000) with 364877. lia.
Qed.

(** C1, the code at the failing inputs.  [get_stock_data] raises
    [ValueError] for the non-numeric days "abc", in every world; the
    main block lets it through; and an exception of [requests.get]
    leaves the main block in the same way. *)
Theorem get_stock_data_raises (w : world) (api_key ticker : string)
    (clk : nat -> datetime) (nt : request -> reply) (e : exn) :
  fst (get_stock_data api_key ticker "abc" w)
  = Raised (ValueError "invalid literal for int() with base 10: 'abc'")
  /\ fst (main (fresh_world (Some "KEY") ["aapl"; "abc"] clk nt))
     = Raised (ValueError "invalid literal for int() with base 10: 'abc'")
  /\ fst (main (fresh_world (Some "KEY") ["aapl"; "30"]
                  (fun _ => noon 2024 3 1) (fun _ => NetworkError e)))
     = Raised e.
Proof.
  split; [|split].
  - rewrite get_stock_data_run. reflexivity.
  - unfold main, get_api_key, mbind, M_bind, print, input, getenv_key, mret, M_ret.
    cbn. rewrite get_stock_data_run. reflexivity.
  - unfold main, get_api_key, mbind, M_bind, print, input, getenv_key, mret, M_ret.
    cbn. rewrite get_stock_data_run. reflexivity.
Qed.

(** C6.  [get_api_key] returns the environment variable when it is set
    and not empty, without prompting.  Otherwise it prompts and reads a
    line: a line that is not blank is returned stripped; for a blank
    line it prints "API key is required to continue" and returns [None],
    and the main block then prints "Exiting..." and exits with no
    request sent. *)
Theorem get_api_key_spec (w : world) :
  match env_key w with
  | Some (String c k) =>
      get_api_key w = (Returned (Some (String c k)), w)
  | _ =>
      let w1 :=
        set_console (console w ++ ["Enter your Polygon.io API key: "]) w in
      match stdin w with
      | [] => get_api_key w = (Raised (EOFError "EOF when reading a line"), w1)
      | line :: rest =>
          let w2 := set_stdin rest w1 in
          if str_truthy (py_strip line) then
            get_api_key w = (Returned (Some (py_strip line)), w2)
          else
            get_api_key w
            = (Returned None,
               set_console
                 (console w2 ++ ["API key is required to continue" +:+ newline])
                 w2)
            /\ fst (main w) = Exited
            /\ sent (snd (main w)) = sent w
            /\ console (snd (main w))
               = (console w
                  ++ [("=== Stock Price Tracker ===" +:+ newline) +:+ newline;
                      "Enter your Polygon.io API key: ";
                      "API key is required to continue" +:+ newline;
                      "Exiting..." +:+ newline])%list
      end
  end.
Proof.
  unfold main, get_api_key, mbind, M_bind, getenv_key, input, print, py_exit,
    mret, M_ret. cbn.
  destruct (env_key w) as [[|c k]|] eqn:Ekey; cbn; try reflexivity.
  - destruct (stdin w) as [|line rest] eqn:Ein; cbn; [reflexivity|].
    destruct (str_truthy (py_strip line)) eqn:Eline; cbn; [reflexivity|].
    rewrite ?Ein; cbn. rewrite ?Eline; cbn.
    repeat split. rewrite <- !app_assoc. reflexivity.
  - destruct (stdin w) as [|line rest] eqn:Ein; cbn; [reflexivity|].
    destruct (str_truthy (py_strip line)) eqn:Eline; cbn; [reflexivity|].
    rewrite ?Ein; cbn. rewrite ?Eline; cbn.
    repeat split. rewrite <- !app_assoc. reflexivity.
Qed.

(** ** The table on disk *)

Lemma append_nil_r (s : string) : s +:+ "" = s.
Proof.
  induction s as [|c s IH]; [reflexivity|].
  change (String c (s +:+ "") = String c s). now rewrite IH.
Qed.

Lemma world_eta (w : world) :
  set_files (files w) (set_writes (writes w) w) = w.
Proof. destruct w; reflexivity. Qed.

Lemma f_write_ok (filename s old : string) (w : world) :
  write_fault w (writes w) = None ->
  files w !! filename = Some (TextFile old) ->
  f_write filename s w
  = (Returned tt,
     set_files (<[filename := TextFile (old +:+ s)]> (files w))
       (set_writes (S (writes w)) w)).
Proof. intros Hf Hl. unfold f_write. rewrite Hf, Hl. reflexivity. Qed.

Lemma write_rows_ok (filename : string) (rows : list bar) :
  forall (w : world) (old : string),
    (forall i, write_fault w i = None) ->
    files w !! filename = Some (TextFile old) ->
    write_rows filename rows w
    = (Returned tt,
       set_files (<[filename := TextFile (old +:+ concat_rows rows)]> (files w))
         (set_writes (length rows + writes w) w)).
Proof.
  induction rows as [|row rows IH]; intros w old Hf Hl.
  - cbn [write_rows concat_rows length Nat.add]. rewrite append_nil_r.
    rewrite (insert_id _ _ _ Hl), world_eta. reflexivity.
  - cbn [write_rows concat_rows length]. unfold mbind, M_bind.
    rewrite (f_write_ok filename (row_line row) old w (Hf _) Hl).
    rewrite (IH _ (old +:+ row_line row)); cbn.
    + rewrite insert_insert_eq, append_assoc, Nat.add_succ_r. reflexivity.
    + exact Hf.
    + apply lookup_insert_eq.
Qed.

Lemma write_table_ok (df : DataFrame) (filename : string) (w : world) :
  open_fault w filename = None ->
  (forall i, write_fault w i = None) ->
  close_fault w = None ->
  exists w',
    write_table df filename w = (Returned tt, w')
    /\ files w' = <[filename := TextFile (table_text (clock w (ticks w)) df)]> (files w)
    /\ console w' = console w /\ sent w' = sent w /\ canvas w' = canvas w
    /\ plt_fault w' = plt_fault w /\ plt_calls w' = plt_calls w.
Proof.
  intros Ho Hw Hc. unfold write_table, mbind, M_bind, f_open, with_exit.
  rewrite Ho.
  set (w0 := set_files _ w).
  assert (Hl0 : files w0 !! filename = Some (TextFile "")) by apply lookup_insert_eq.
  rewrite (f_write_ok filename _ "" w0 (Hw _) Hl0).
  set (w1 := set_files _ _).
  rewrite (f_write_ok filename _ _ w1 (Hw _) (lookup_insert_eq _ _ _)).
  set (w2 := set_files _ _). unfold datetime_now. cbn [fst snd].
  set (w3 := set_ticks _ w2).
  rewrite (f_write_ok filename _ _ w3 (Hw _) (lookup_insert_eq _ _ _)).
  set (w4 := set_files _ _).
  rewrite (f_write_ok filename _ _ w4 (Hw _) (lookup_insert_eq _ _ _)).
  set (w5 := set_files _ _).
  rewrite (f_write_ok filename _ _ w5 (Hw _) (lookup_insert_eq _ _ _)).
  set (w6 := set_files _ _).
  rewrite (write_rows_ok filename df w6 _ Hw (lookup_insert_eq _ _ _)).
  unfold f_close. cbn. rewrite Hc.
  eexists. split; [reflexivity|]. cbn.
  repeat split.
  rewrite !insert_insert_eq. unfold table_text.
  rewrite !append_assoc. reflexivity.
Qed.

(** ** The table in memory *)

Lemma read_response_ok (r : response) (w : world) fields items rs ds :
  status_code r = 200 ->
  json_body r = Some (JObj fields) ->
  dict_get "results" fields = Some (JArr items) ->
  items <> [] ->
  raws_of_items items = Some rs ->
  dates_of rs = Some ds ->
  read_response r w = (Returned (Some (zip_with (bar_of rs) rs ds)), w).
Proof.
  intros Hs Hb Hr Hne Hrs Hds.
  unfold read_response, mbind, M_bind, response_json, lift_option.
  rewrite Hs, Hb. cbn. rewrite Hr. cbn.
  destruct items as [|it items]; [contradiction|]. cbn [json_truthy].
  unfold DataFrame_of_results. rewrite Hrs, Hds. reflexivity.
Qed.

Lemma raws_of_items_length items :
  forall rs, raws_of_items items = Some rs -> length rs = length items.
Proof.
  induction items as [|it items IH]; intros rs H; cbn in H.
  - injection H as <-. reflexivity.
  - destruct (raw_of_json it); [|discriminate].
    destruct (raws_of_items items) as [rs'|]; [|discriminate].
    injection H as <-. cbn. now rewrite (IH rs').
Qed.

(** Row [i] of the table is item [i] of the response: its date is the
    item's timestamp and its text is that date. *)
Lemma table_rows_in_order (f : raw_bar -> datetime -> bar) rs :
  (forall r d, date (f r d) = d /\ date_str (f r d) = strftime_ymd d) ->
  forall ds, dates_of rs = Some ds ->
  Forall2 (fun r b => to_datetime_ms (raw_t r) = Some (date b)
                      /\ date_str b = strftime_ymd (date b))
          rs (zip_with f rs ds).
Proof.
  intros Hf. induction rs as [|r rs IH]; intros ds H; cbn in H.
  - injection H as <-. constructor.
  - destruct (to_datetime_ms (raw_t r)) as [d|] eqn:Ed; [|discriminate].
    destruct (dates_of rs) as [ds'|]; [|discriminate].
    injection H as <-. cbn [zip_with]. constructor; [|apply IH; reflexivity].
    destruct (Hf r d) as [-> ->]. split; [exact Ed | reflexivity].
Qed.

Lemma to_datetime_ms_ordinal t d :
  to_datetime_ms t = Some d -> toordinal d = EPOCH_ORDINAL + t / MS_PER_DAY.
Proof.
  unfold to_datetime_ms, MAX_TIMESTAMP_MS.
  destruct (Z.ltb_spec ((2 ^ 63 - 1) / 1000000) (Z.abs t)) as [|Hb]; [discriminate|].
  change ((2 ^ 63 - 1) / 1000000) with 9223372036854 in Hb.
  assert (Ho : 1 <= EPOCH_ORDINAL + t / MS_PER_DAY).
  { unfold EPOCH_ORDINAL, MS_PER_DAY. Z.div_mod_to_equations; lia. }
  pose proof (ord2ymd_spec _ Ho) as Hspec.
  destruct (ord2ymd (EPOCH_ORDINAL + t / MS_PER_DAY)) as [[y m] dd].
  intros H. injection H as <-. unfold toordinal. cbn. apply Hspec.
Qed.

Lemma rows_sorted rs : forall df,
  Forall2 (fun r b => to_datetime_ms (raw_t r) = Some (date b)
                      /\ date_str b = strftime_ymd (date b)) rs df ->
  Sorted Z.le (map raw_t rs) ->
  Sorted Z.le (map (fun b => toordinal (date b)) df).
Proof.
  intros df H. induction H as [|r b rs df [Hd _] Hrest IH]; intros Hs.
  - constructor.
  - cbn in Hs |- *. apply Sorted_inv in Hs. destruct Hs as [Hs Hhd].
    constructor; [apply IH; exact Hs|].
    destruct Hrest as [|r' b' rs' df' [Hd' _] _]; cbn in *; constructor.
    apply HdRel_inv in Hhd.
    rewrite (to_datetime_ms_ordinal _ _ Hd), (to_datetime_ms_ordinal _ _ Hd').
    unfold MS_PER_DAY. Z.div_mod_to_equations; lia.
Qed.

Lemma plt_savefig_other (filename other : string) (dpi : Z) :
  filename <> other ->
  preserves (fun w => files w !! other) (plt_savefig filename dpi).
Proof.
  intros Hne w. unfold plt_savefig.
  destruct (plt_fault w (plt_calls w)); cbn;
    [destruct (savefig_cut w); [|reflexivity]|];
    apply lookup_insert_ne; exact Hne.
Qed.

Lemma create_price_graph_other (stock days filename other : string) df :
  filename <> other ->
  preserves (fun w => files w !! other)
    (create_price_graph stock days df filename).
Proof.
  intros Hne. pose proof (plt_savefig_other filename other 300 Hne).
  unfold create_price_graph, draw_chart. preserve.
Qed.

Lemma concat_rows_lines (df : DataFrame) :
  concat_rows df = str_concat (map row_line df).
Proof.
  induction df as [|b df IH]; [reflexivity|].
  cbn [concat_rows map str_concat fold_right]. f_equal. exact IH.
Qed.

Lemma table_text_lines (now : datetime) (df : DataFrame) :
  table_text now df = table_head now +:+ str_concat (map row_line df).
Proof.
  unfold table_text, table_head. rewrite !append_assoc.
  rewrite concat_rows_lines. reflexivity.
Qed.

(** A written row starts with the date text of its bar and ends with
    the newline. *)
Lemma row_line_date (b : bar) :
  exists mid, row_line b = date_str b +:+ mid +:+ newline.
Proof.
  exists (spaces (12 - String.length (date_str b)) +:+ " "
          +:+ ljust 8 (str_of_number (open b)) +:+ " "
          +:+ ljust 8 (str_of_number (high b)) +:+ " "
          +:+ ljust 8 (str_of_number (low b)) +:+ " "
          +:+ ljust 8 (str_of_number (close b)) +:+ " "
          +:+ ljust 12 (str_of_number (volume b))).
  unfold row_line. unfold ljust at 1. rewrite !append_assoc. reflexivity.
Qed.


(** ** The claims on sample runs *)

(** The text table of the sample run, as it lies on disk. *)
Example sample_table_on_disk :
  files (snd (main (world_answering sample_response))) !! "stock_data.txt"
  = Some (TextFile (table_text (noon 2024 3 1) sample_table))
  /\ concat_rows sample_table
     = "2024-01-02   150.26   185.64   150      2.68     1000.0      "
       +:+ newline
       +:+ "2024-01-03   187.0    188.0    183      184.0    123456.0    "
       +:+ newline.
Proof. split; vm_compute; reflexivity. Qed.

Lemma bad_response_witness :
  (net (world_answering not_found) sample_request = Answer not_found
   /\ bad_reply not_found
   /\ fst (main (world_answering not_found)) = Returned tt
   /\ files (snd (main (world_answering not_found)))
      = files (world_answering not_found))
  /\ (bad_reply no_bars
      /\ fst (main (world_answering no_bars)) = Returned tt
      /\ files (snd (main (world_answering no_bars)))
         = files (world_answering no_bars))
  /\ (bad_reply no_key
      /\ fst (main (world_answering no_key)) = Returned tt
      /\ files (snd (main (world_answering no_key)))
         = files (world_answering no_key)).
Proof.
  assert (H404 : bad_reply not_found) by (left; discriminate).
  assert (H0 : bad_reply no_bars) by (right; eexists; split; reflexivity).
  assert (Hk : bad_reply no_key) by (right; eexists; split; reflexivity).
  split; [|split].
  - split; [reflexivity|]. split; [exact H404|].
    destruct (bad_response_stops_pipeline (world_answering not_found)
                sample_request not_found) as (Hr & Hf & _);
      [vm_compute; reflexivity | reflexivity | exact H404 |].
    split; assumption.
  - split; [exact H0|].
    destruct (bad_response_stops_pipeline (world_answering no_bars)
                sample_request no_bars) as (Hr & Hf & _);
      [vm_compute; reflexivity | reflexivity | exact H0 |].
    split; assumption.
  - split; [exact Hk|].
    destruct (bad_response_stops_pipeline (world_answering no_key)
                sample_request no_key) as (Hr & Hf & _);
      [vm_compute; reflexivity | reflexivity | exact Hk |].
    split; assumption.
Defined.

Lemma date_range_witness :
  py_int "30" = Some 30
  /\ exists start rq,
       sent (snd (get_stock_data "KEY" "AAPL" "30"
                    (world_answering sample_response)))
       = [rq]
       /\ req_url rq
          = API_BASE +:+ "AAPL" +:+ "/range/1/day/" +:+ strftime_ymd start
            +:+ "/" +:+ strftime_ymd (noon 2024 3 1)
       /\ valid_datetime start
       /\ toordinal start = toordinal (noon 2024 3 1) - 30
       /\ is_iso_date (strftime_ymd start) = true
       /\ is_iso_date (strftime_ymd (noon 2024 3 1)) = true.
Proof.
  split; [reflexivity|].
  apply (date_range_spans_days (world_answering sample_response)
           "KEY" "AAPL" "30" 30).
  - reflexivity.
  - unfold valid_datetime; cbn; lia.
  - unfold valid_datetime; cbn; lia.
  - repeat split.
  - cbn; lia.
  - vm_compute. split; discriminate.
Defined.

(** C3, the code at the failing inputs.  The clock is read twice, once
    for the end date and once for the start date: when midnight passes
    between the two readings, the start date is counted from the new
    day, and for 30 days the range built is 2024-02-01 to 2024-03-01,
    which is 29 days.  And one million is a numeric lookback for which
    the start date would lie before year 1: the subtraction raises
    [OverflowError], which leaves [get_stock_data], and no request with
    a date range is built. *)
Theorem date_range_misses_a_day :
  (py_int "30" = Some 30
   /\ midnight_clock 0 = mk_datetime 2024 3 1 23 59 59 999999
   /\ midnight_clock 1 = mk_datetime 2024 3 2 0 0 0 3
   /\ map req_url
        (sent (snd (get_stock_data "KEY" "AAPL" "30"
                      (fresh_world (Some "KEY") [] midnight_clock
                         (fun _ => Answer sample_response)))))
      = ["https://api.polygon.io/v2/aggs/ticker/AAPL/range/1/day/2024-02-01/2024-03-01"]
   /\ ymd2ord 2024 3 1 - ymd2ord 2024 2 1 = 29)
  /\ (py_int "1000000" = Some 1000000
      /\ fst (get_stock_data "KEY" "AAPL" "1000000"
                (world_answering sample_response))
         = Raised (OverflowError "date value out of range")
      /\ sent (snd (get_stock_data "KEY" "AAPL" "1000000"
                      (world_answering sample_response)))
         = []).
Proof. repeat split; vm_compute; reflexivity. Qed.

(** C2, the code at the failing inputs.  A reply with status 200 whose
    body is the JSON value [null], or a list that holds the string
    ['results'], has no key [results]; the membership test, or the
    subscript after it, raises [TypeError], which leaves
    [get_stock_data] and the main block: neither "No data found in API
    response" nor "Failed to retrieve data" is printed, the console
    holds the prompts only. *)
Theorem results_test_raises :
  (json_body null_body = Some JNull
   /\ (exists e,
         fst (get_stock_data "KEY" "AAPL" "30" (world_answering null_body))
         = Raised e
         /\ fst (main (world_answering null_body)) = Raised e
         /\ exn_class e = "TypeError")
   /\ console (snd (main (world_answering null_body)))
      = prompts (world_answering null_body))
  /\ (json_body results_listed = Some (JArr [JStr "results"])
      /\ (exists e,
            fst (get_stock_data "KEY" "AAPL" "30"
                   (world_answering results_listed))
            = Raised e
            /\ fst (main (world_answering results_listed)) = Raised e
            /\ exn_class e = "TypeError")
      /\ console (snd (main (world_answering results_listed)))
         = prompts (world_answering results_listed)).
Proof.
  split; (split; [reflexivity|]); split;
    try (vm_compute; reflexivity);
    eexists; repeat split; vm_compute; reflexivity.
Qed.

(** Before year 1000 the year is printed with fewer than four digits,
    as the C library does. *)
Lemma range_before_year_1000 :
  map req_url
    (sent (snd (get_stock_data "KEY" "AAPL" "400000"
                  (world_answering sample_response))))
  = ["https://api.polygon.io/v2/aggs/ticker/AAPL/range/1/day/929-01-01/2024-03-01"].
Proof. vm_compute. reflexivity. Qed.


Lemma annotation_witness :
  last sample_table = Some sample_last
  /\ exists drawn,
       canvas (snd (create_price_graph "AAPL" "30" (Some sample_table)
                      "stock_chart.png" (world_answering sample_response)))
       = drawn
       /\ In (Annotate "Latest: $184.00" (date sample_last) (close sample_last))
            drawn.
Proof.
  split; [reflexivity|].
  destruct (annotation_shows_last_close "AAPL" "30" "stock_chart.png"
              sample_table (world_answering sample_response) sample_last
              eq_refl) as (drawn & Hc & _ & Hin & _).
  exists drawn. split; [exact Hc|].
  apply Hin; [discriminate | reflexivity].
Defined.

Lemma ticker_witness :
  ticker_line (world_answering sample_response) = "aapl"
  /\ sent (snd (main (world_answering sample_response))) = [sample_request]
  /\ exists rest,
       req_url sample_request = API_BASE +:+ "AAPL" +:+ rest.
Proof.
  split; [reflexivity|]. split; [vm_compute; reflexivity|].
  apply (ticker_is_sent_in_upper_case (world_answering sample_response)
           sample_request).
  vm_compute; reflexivity.
Defined.

(** * Further properties *)

#[local] Arguments get_stock_data : simpl never.
#[local] Arguments report : simpl never.
#[local] Arguments read_response : simpl never.

(** ** The run up to the fetch *)

(** A run either stops before the fetch, or goes into it with the key,
    the ticker in upper case and the days as typed. *)
Lemma main_fetch (w : world) :
  main w =
  if reaches_fetch w then
    (get_stock_data (key_line w) (py_upper (ticker_line w)) (days_line w)
     ≫= report (py_upper (ticker_line w)) (days_line w)) (world_at_fetch w)
  else main w.
Proof.
  destruct (reaches_fetch w) eqn:Er; [|reflexivity].
  unfold reaches_fetch in Er.
  unfold main, get_api_key, ticker_line, key_line, days_line, world_at_fetch,
    prompts, mbind, M_bind, print, input, getenv_key, py_exit, mret, M_ret. cbn.
  destruct (opt_str_truthy (env_key w)) eqn:Ekey; cbn.
  - destruct (stdin w) as [|tkr [|days rest]] eqn:Ein; cbn in Er; try discriminate.
    repeat (progress (rewrite ?Ekey, ?Ein; cbn)).
    rewrite <- !app_assoc. reflexivity.
  - destruct (stdin w) as [|line [|tkr [|days rest]]] eqn:Ein; cbn in Er;
      try discriminate; try (rewrite andb_false_r in Er; discriminate).
    rewrite andb_true_r in Er.
    repeat (progress (rewrite ?Ekey, ?Ein, ?Er; cbn)).
    rewrite <- !app_assoc. reflexivity.
Qed.

(** A run that does not reach the fetch sends nothing, writes nothing,
    draws nothing, and ends by [exit()] or by [EOFError]. *)
Lemma main_stops_early (w : world) :
  reaches_fetch w = false ->
  sent (snd (main w)) = sent w /\ files (snd (main w)) = files w
  /\ canvas (snd (main w)) = canvas w
  /\ (fst (main w) = Exited
      \/ fst (main w) = Raised (EOFError "EOF when reading a line")).
Proof.
  unfold reaches_fetch.
  unfold main, get_api_key, mbind, M_bind, print, input, getenv_key, py_exit,
    mret, M_ret. cbn.
  destruct (opt_str_truthy (env_key w)) eqn:Ekey; cbn.
  - destruct (stdin w) as [|tkr [|days rest]] eqn:Ein; cbn; try discriminate;
      intros _; repeat (progress (rewrite ?Ekey, ?Ein; cbn)); auto.
  - destruct (stdin w) as [|line rest] eqn:Ein; cbn.
    + intros _. auto.
    + destruct (str_truthy (py_strip line)) eqn:Eline; cbn.
      * destruct rest as [|tkr [|days rest]]; cbn; try discriminate; intros _;
          repeat (progress (rewrite ?Ekey, ?Ein, ?Eline; cbn)); auto.
      * intros _. repeat (progress (rewrite ?Ekey, ?Ein, ?Eline; cbn)); auto.
Qed.

(** With a request made, the rest of the run is what is done with the
    reply. *)
Lemma main_with_request (w : world) (rq : request) :
  request_of_run w = Some rq ->
  main w =
  match net w rq with
  | Answer r =>
      (read_response r ≫= report (py_upper (ticker_line w)) (days_line w))
        (world_at_answer w rq)
  | NetworkError e => (Raised e, world_at_answer w rq)
  end.
Proof.
  unfold request_of_run. intros H. rewrite main_fetch.
  destruct (reaches_fetch w); [|discriminate].
  unfold mbind at 1, M_bind at 1. rewrite get_stock_data_run. cbn.
  destruct (py_int (days_line w)) as [n|]; [|discriminate].
  destruct (sub_days _ n) as [start|]; [|discriminate].
  injection H as <-. cbn.
  change (request_of (world_at_fetch w)) with (request_of w).
  change (net (world_at_fetch w)) with (net w).
  fold (world_at_answer w
          (request_of w (key_line w) (py_upper (ticker_line w)) start)).
  destruct (net w _) as [r|e]; [|reflexivity].
  unfold mbind, M_bind.
  destruct (read_response r _) as [[df| | |] w2]; reflexivity.
Qed.

(** Without a request, the run ends in an exception or in [exit()],
    having sent, written and drawn nothing. *)
Lemma main_without_request (w : world) :
  request_of_run w = None ->
  sent (snd (main w)) = sent w /\ files (snd (main w)) = files w
  /\ canvas (snd (main w)) = canvas w
  /\ (fst (main w) = Exited \/ exists e, fst (main w) = Raised e).
Proof.
  unfold request_of_run. intros H.
  destruct (reaches_fetch w) eqn:Er.
  - pose proof (main_fetch w) as Hm. rewrite Er in Hm.
    unfold mbind, M_bind in Hm. rewrite get_stock_data_run in Hm.
    unfold world_at_fetch in Hm. cbn in Hm.
    destruct (py_int (days_line w)) as [n|]; cbn in Hm.
    + destruct (sub_days _ n) as [start|]; [discriminate|]. cbn in Hm.
      rewrite Hm. cbn. repeat split; eauto.
    + rewrite Hm. cbn. repeat split; eauto.
  - destruct (main_stops_early w Er) as (? & ? & ? & [?|?]); eauto 7.
Qed.

Lemma after_reply_sent (w : world) (r : response) stock days :
  sent (snd ((read_response r ≫= report stock days) w)) = sent w.
Proof.
  apply (preserves_bind sent); [apply read_response_sent|].
  intros a. apply report_sent.
Qed.

Lemma main_sent (w : world) :
  sent (snd (main w)) = (sent w ++ option_list (request_of_run w))%list.
Proof.
  destruct (request_of_run w) as [rq|] eqn:E; cbn [option_list].
  - rewrite (main_with_request w rq E).
    destruct (net w rq) as [r|e]; [|reflexivity].
    rewrite after_reply_sent. reflexivity.
  - rewrite app_nil_r. apply (main_without_request w E).
Qed.

(** X1.  A run calls [requests.get] at most once, whatever the reply:
    the requests sent are those sent before, followed by the request
    built from the key, the ticker in upper case and the two dates when
    the run gets that far, and by nothing otherwise.  A run that builds
    no request ends in [exit()] or in an exception and leaves files and
    canvas alone. *)
Theorem main_sends_at_most_one_request (w : world) :
  sent (snd (main w)) = (sent w ++ option_list (request_of_run w))%list
  /\ (length (sent (snd (main w))) <= S (length (sent w)))%nat
  /\ (request_of_run w = None ->
      files (snd (main w)) = files w /\ canvas (snd (main w)) = canvas w
      /\ (fst (main w) = Exited \/ exists e, fst (main w) = Raised e)).
Proof.
  split; [apply main_sent|]. split.
  - rewrite main_sent, length_app.
    destruct (request_of_run w); cbn; lia.
  - intros E. apply (main_without_request w E).
Qed.

Lemma request_of_sent (w : world) (rq : request) :
  sent (snd (main w)) = (sent w ++ [rq])%list -> request_of_run w = Some rq.
Proof.
  rewrite main_sent. intros H.
  apply app_inv_head in H.
  destruct (request_of_run w); cbn in H; congruence.
Qed.

Lemma key_line_not_empty (w : world) :
  reaches_fetch w = true -> key_line w <> "".
Proof.
  unfold reaches_fetch, key_line.
  destruct (opt_str_truthy (env_key w)) eqn:E.
  - intros _. destruct (env_key w) as [[|c k]|]; cbn in *; congruence.
  - intros H. apply andb_true_iff in H. destruct H as [H _].
    destruct (py_strip _); cbn in H; congruence.
Qed.

(** X2.  The request of a run carries three parameters, [adjusted=true],
    [sort=asc] and the key, and the key is never empty: it is the value
    of the environment variable when that is set and not empty, and the
    first line typed, stripped of blanks, otherwise. *)
Theorem request_carries_the_key (w : world) (rq : request) :
  sent (snd (main w)) = (sent w ++ [rq])%list ->
  req_params rq
  = [("adjusted", "true"); ("sort", "asc"); ("apikey", key_line w)]
  /\ key_line w <> ""
  /\ (forall k, env_key w = Some k -> k <> "" -> key_line w = k)
  /\ (opt_str_truthy (env_key w) = false ->
      exists line rest, stdin w = line :: rest /\ key_line w = py_strip line).
Proof.
  intros H. apply request_of_sent in H. unfold request_of_run in H.
  destruct (reaches_fetch w) eqn:Er; [|discriminate].
  destruct (py_int (days_line w)) as [n|]; [|discriminate].
  destruct (sub_days _ n) as [start|]; [|discriminate].
  injection H as <-. split; [reflexivity|].
  split; [apply key_line_not_empty; exact Er|]. split.
  - intros k Hk Hne. unfold key_line. rewrite Hk.
    destruct k; [contradiction|reflexivity].
  - intros Hf. unfold reaches_fetch, key_line in *. rewrite Hf in *.
    destruct (stdin w) as [|line rest]; cbn in Er.
    + rewrite andb_false_r in Er. discriminate.
    + eauto.
Qed.

Lemma read_response_table (r : response) (w w' : world) (df : DataFrame) :
  read_response r w = (Returned (Some df), w') ->
  status_code r = 200 /\ df <> [] /\ w' = w.
Proof.
  unfold read_response, mbind, M_bind, response_json, lift_option,
    contains_results, getitem_results, DataFrame_of_results, print, raise,
    beyond, mret, M_ret.
  destruct (Z.eqb_spec (status_code r) 200) as [E|E]; cbn; [|discriminate].
  destruct (json_body r) as [[|b|nm|str|its|fields]|]; cbn; try discriminate.
  - destruct (str_contains _ str); cbn; discriminate.
  - destruct (existsb _ its); cbn; discriminate.
  - destruct (dict_get "results" fields) as [res|]; cbn; [|discriminate].
    destruct (json_truthy res) eqn:Et; cbn; [|discriminate].
    destruct res as [|b|nm|str|items|fs]; cbn; try discriminate.
    destruct items as [|it items]; [discriminate|].
    cbn [raws_of_items].
    destruct (raw_of_json it) as [r0|]; cbn; [|discriminate].
    destruct (raws_of_items items) as [rs|]; cbn; [|discriminate].
    cbn [dates_of].
    destruct (to_datetime_ms (raw_t r0)) as [d|]; cbn; [|discriminate].
    destruct (dates_of rs) as [ds|]; cbn; [|discriminate].
    intros H. injection H as <- <-. repeat split; [assumption|discriminate].
Qed.

(** X11.  A reply with status 200 whose body is not JSON, or is a bare
    number, boolean or null, is not reported as a failed fetch: the
    exception of [response.json()] or of the membership test leaves
    [get_stock_data] and the run uncaught.  Nothing is printed after the
    prompts, and no file and no chart are made. *)
Theorem unreadable_body_raises (w : world) (rq : request) (r : response)
    (cls : string) :
  sent (snd (main w)) = (sent w ++ [rq])%list ->
  net w rq = Answer r ->
  status_code r = 200 ->
  unreadable_body r = Some cls ->
  (exists e, fst (main w) = Raised e /\ exn_class e = cls)
  /\ console (snd (main w)) = (console w ++ prompts w)%list
  /\ files (snd (main w)) = files w
  /\ canvas (snd (main w)) = canvas w.
Proof.
  intros Hsent Hnet Hs Hu. apply request_of_sent in Hsent.
  rewrite (main_with_request w rq Hsent), Hnet.
  unfold mbind, M_bind, read_response. rewrite Hs. cbn.
  unfold unreadable_body in Hu. unfold mbind, M_bind, response_json, lift_option.
  destruct (json_body r) as [[|b|nm|str|its|fs]|]; cbn in *; try discriminate;
    injection Hu as <-; repeat split; eexists; split; reflexivity.
Qed.

(** ** The chart *)

Ltac pick_disk :=
  first [ left; reflexivity
        | right; left; split; [cbn; lia | reflexivity]
        | right; right; split; [reflexivity|];
          split; [first [reflexivity | assumption]|];
          split; [eexists; first [reflexivity | eassumption] | reflexivity] ].

Ltac pick_prefix_at k :=
  exists k; cbn; rewrite ?app_nil_r; split; [reflexivity | pick_disk].

Ltac pick_prefix :=
  first [ pick_prefix_at 0%nat | pick_prefix_at 1%nat | pick_prefix_at 2%nat
        | pick_prefix_at 3%nat | pick_prefix_at 4%nat | pick_prefix_at 5%nat
        | pick_prefix_at 6%nat | pick_prefix_at 7%nat | pick_prefix_at 8%nat
        | pick_prefix_at 9%nat | pick_prefix_at 10%nat | pick_prefix_at 11%nat
        | pick_prefix_at 12%nat | pick_prefix_at 13%nat | pick_prefix_at 14%nat
        | pick_prefix_at 15%nat | pick_prefix_at 16%nat ].

(** Whatever fails, the canvas receives a beginning of the plan, and the
    disk changes only in [savefig]: it is as it was, or it holds the
    whole picture, or, [savefig] having failed with its file open, a cut
    file. *)
Lemma draw_chart_prefix (stock days filename : string) (rows : DataFrame)
    (w : world) :
  exists k : nat,
    canvas (snd (draw_chart stock days rows filename w))
    = (canvas w ++ firstn k (chart_plan stock days filename rows))%list
    /\ (files (snd (draw_chart stock days rows filename w)) = files w
        \/ ((15 <= length (firstn k (chart_plan stock days filename rows)))%nat
            /\ files (snd (draw_chart stock days rows filename w))
               = <[filename :=
                     ImageFile
                       (canvas w ++ chart_image stock days filename rows)]>
                   (files w))
        \/ (length (firstn k (chart_plan stock days filename rows)) = 14%nat
            /\ savefig_cut w = true
            /\ (exists e, plt_fault w (14 + plt_calls w)%nat = Some e)
            /\ files (snd (draw_chart stock days rows filename w))
               = <[filename := CutFile]> (files w))).
Proof.
  unfold chart_image, chart_plan, draw_chart, mbind, M_bind, iloc_last.
  rewrite !last_map.
  unfold plt, plt_savefig, int_of_str, lift_option, raise, mret, M_ret. cbn.
  destruct (py_int days) as [n|]; destruct (last rows) as [b|]; cbn.
  all: repeat step_plt.
  all: try match goal with
           | |- context [savefig_cut ?x] => destruct (savefig_cut x) eqn:Hcut; cbn
           end.
  all: repeat rewrite <- app_assoc; cbn [app].
  all: pick_prefix.
Qed.

Lemma create_price_graph_disk stock days rows filename w :
  files (snd (create_price_graph stock days (Some rows) filename w))
  = files (snd (draw_chart stock days rows filename w)).
Proof.
  pose proof (try_except_print (draw_chart stock days rows filename)
                (fun e => "Error creating graph: " +:+ exn_text e) w
                (draw_chart_no_escape stock days rows filename)) as H.
  unfold create_price_graph.
  destruct (draw_chart stock days rows filename w) as [[[]| e | |] w'];
    try contradiction; rewrite H; reflexivity.
Qed.

Lemma in_firstn {A} (x : A) (k : nat) (l : list A) :
  In x (firstn k l) -> In x l.
Proof.
  revert l. induction k as [|k IH]; intros [|a l] H; cbn in *; try contradiction.
  destruct H as [H|H]; [left; exact H | right; apply IH; exact H].
Qed.

Lemma length_firstn_le {A} (k : nat) (l : list A) :
  (length (firstn k l) <= length l)%nat.
Proof.
  revert l. induction k as [|k IH]; intros [|a l]; cbn; try lia.
  specialize (IH l). lia.
Qed.


(** X12.  The interval handed to [DayLocator] is never below one,
    also for zero or negative days: whenever the locator is set, the
    number of days is a number [n] and the interval is [max(1, n // 15)],
    which is 1 below thirty days and [n // 15] from fifteen days on. *)
Theorem tick_interval_is_positive (stock days filename : string)
    (rows : DataFrame) (w : world) (drawn : list plot_cmd) (k : Z) :
  canvas (snd (create_price_graph stock days (Some rows) filename w))
  = (canvas w ++ drawn)%list ->
  In (MajorLocator k) drawn ->
  1 <= k
  /\ exists n,
       py_int days = Some n /\ k = Z.max 1 (n / 15)
       /\ (n < 30 -> k = 1) /\ (15 <= n -> k = n / 15).
Proof.
  rewrite create_price_graph_canvas.
  destruct (draw_chart_prefix stock days filename rows w) as (j & Hc & _).
  rewrite Hc. intros H. apply app_inv_head in H. subst drawn.
  intros Hin. apply in_firstn in Hin. unfold chart_plan in Hin.
  destruct (py_int days) as [n|].
  - assert (Hk : k = Z.max 1 (n / 15)).
    { destruct (last rows); cbn in Hin; intuition (try discriminate);
        congruence. }
    split; [lia|]. exists n. split; [reflexivity|]. split; [exact Hk|].
    split; intros; subst k; Z.div_mod_to_equations; lia.
  - cbn in Hin. intuition discriminate.
Qed.

Lemma create_price_graph_returns stock days rows filename w :
  fst (create_price_graph stock days (Some rows) filename w) = Returned tt.
Proof.
  pose proof (try_except_print (draw_chart stock days rows filename)
                (fun e => "Error creating graph: " +:+ exn_text e) w
                (draw_chart_no_escape stock days rows filename)) as H.
  unfold create_price_graph.
  destruct (draw_chart stock days rows filename w) as [[[]| e | |] w'];
    try contradiction; rewrite H; reflexivity.
Qed.

Lemma draw_chart_empty (stock days filename : string) (w : world) :
  exists e w',
    draw_chart stock days [] filename w = (Raised e, w')
    /\ console w' = console w.
Proof.
  unfold draw_chart, mbind, M_bind, iloc_last.
  unfold plt, plt_savefig, int_of_str, lift_option, raise, mret, M_ret. cbn.
  destruct (py_int days) as [n|]; cbn.
  all: repeat step_plt.
  all: eexists; eexists; split; reflexivity.
Qed.

(** X5.  For a table without rows [create_price_graph] returns, makes
    no file, and never reaches the annotation, [savefig] or [show]: the
    try block always ends in an exception (at the latest the
    [IndexError] of [iloc[-1]]), and exactly one line, "Error creating
    graph: " followed by its text, is printed. *)
Theorem no_chart_for_an_empty_table (stock days filename : string)
    (w : world) :
  fst (create_price_graph stock days (Some []) filename w) = Returned tt
  /\ files (snd (create_price_graph stock days (Some []) filename w))
     = files w
  /\ (exists drawn,
        canvas (snd (create_price_graph stock days (Some []) filename w))
        = (canvas w ++ drawn)%list
        /\ ~ In Show drawn /\ ~ In (SaveFig filename 300) drawn
        /\ forall l x y, ~ In (Annotate l x y) drawn)
  /\ (exists e,
        console (snd (create_price_graph stock days (Some []) filename w))
        = (console w
           ++ [("Error creating graph: " +:+ exn_text e) +:+ newline])%list).
Proof.
  split; [apply create_price_graph_returns|].
  destruct (draw_chart_prefix stock days filename [] w) as (k & Hc & Hf).
  assert (Hplan : forall c, In c (firstn k (chart_plan stock days filename [])) ->
                  c <> Show /\ c <> SaveFig filename 300
                  /\ forall l x y, c <> Annotate l x y).
  { intros c Hin. apply in_firstn in Hin. unfold chart_plan in Hin.
    destruct (py_int days); cbn in Hin;
      intuition (subst; discriminate). }
  split; [|split].
  - rewrite create_price_graph_disk.
    pose proof (length_firstn_le k (chart_plan stock days filename [])) as Hl.
    destruct Hf as [Hf | [(Hk & _) | (Hk & _)]]; [exact Hf | exfalso | exfalso];
      unfold chart_plan in Hk, Hl; destruct (py_int days); cbn in Hk, Hl; lia.
  - rewrite create_price_graph_canvas. eexists. split; [exact Hc|].
    split; [|split].
    + intros Hin. destruct (Hplan _ Hin) as (H & _). congruence.
    + intros Hin. destruct (Hplan _ Hin) as (_ & H & _). congruence.
    + intros l x y Hin. destruct (Hplan _ Hin) as (_ & _ & H).
      apply (H l x y). reflexivity.
  - destruct (draw_chart_empty stock days filename w) as (e & w' & Hd & Hcon).
    pose proof (try_except_print (draw_chart stock days [] filename)
                  (fun e => "Error creating graph: " +:+ exn_text e) w
                  (draw_chart_no_escape stock days [] filename)) as H.
    rewrite Hd in H. unfold create_price_graph. rewrite H. cbn.
    rewrite Hcon. exists e. reflexivity.
Qed.

Lemma draw_chart_ok (stock days filename : string) (rows : DataFrame)
    (w : world) (n : Z) (b : bar) :
  py_int days = Some n ->
  last rows = Some b ->
  (forall i, plt_fault w i = None) ->
  exists w',
    draw_chart stock days rows filename w = (Returned tt, w')
    /\ canvas w' = (canvas w ++ chart_plan stock days filename rows)%list
    /\ files w'
       = <[filename :=
             ImageFile (canvas w ++ chart_image stock days filename rows)]>
           (files w)
    /\ console w' = console w /\ sent w' = sent w.
Proof.
  intros Hn Hlast Hok.
  unfold chart_image, chart_plan, draw_chart, mbind, M_bind, iloc_last.
  rewrite !last_map, Hlast, Hn.
  unfold plt, plt_savefig, int_of_str, lift_option, raise, mret, M_ret. cbn.
  rewrite Hn. cbn.
  repeat (rewrite Hok; cbn).
  eexists. split; [reflexivity|]. cbn.
  repeat rewrite <- app_assoc. cbn [app]. repeat split.
Qed.

(** ** A run that succeeds *)


(** ** The text table: what is on disk after a failure *)

Lemma str_prefix_nil (s : string) : str_prefix "" s.
Proof. exists s. reflexivity. Qed.

Lemma str_prefix_refl (s : string) : str_prefix s s.
Proof. exists "". symmetry. apply append_nil_r. Qed.

Lemma str_prefix_app_r (a r : string) : str_prefix a (a +:+ r).
Proof. exists r. reflexivity. Qed.

Lemma str_prefix_app_l (a p s : string) :
  str_prefix p s -> str_prefix (a +:+ p) (a +:+ s).
Proof. intros [r ->]. exists r. symmetry. apply append_assoc. Qed.

Lemma write_rows_prefix (filename : string) (rows : list bar) :
  forall (w : world) (old : string),
    files w !! filename = Some (TextFile old) ->
    exists p,
      files (snd (write_rows filename rows w)) !! filename
      = Some (TextFile (old +:+ p))
      /\ str_prefix p (concat_rows rows).
Proof.
  induction rows as [|row rows IH]; intros w old Hl.
  - exists "". cbn. rewrite append_nil_r. split; [exact Hl|apply str_prefix_nil].
  - cbn [write_rows concat_rows]. unfold mbind, M_bind, f_write. rewrite Hl.
    destruct (write_fault w (writes w)) as [e|]; cbn.
    + exists "". rewrite append_nil_r. split; [exact Hl|apply str_prefix_nil].
    + set (w1 := set_files _ _).
      destruct (IH w1 (old +:+ row_line row)) as (p & Hp & Hpre).
      { apply lookup_insert_eq. }
      exists (row_line row +:+ p). rewrite <- append_assoc.
      split; [|apply str_prefix_app_l; exact Hpre].
      destruct (write_rows filename rows w1) as [[[]| | |] w2]; exact Hp.
Qed.

Lemma with_close_files {A} (body : M A) (w : world) :
  files (snd (with_exit body f_close w)) = files (snd (body w)).
Proof.
  unfold with_exit, f_close.
  destruct (body w) as [[a|e| |] w']; cbn; try reflexivity;
    destruct (close_fault w'); reflexivity.
Qed.

Lemma save_to_text_file_disk (df : DataFrame) (filename : string) (w : world) :
  files (snd (save_to_text_file (Some df) filename w))
  = files (snd (write_table df filename w)).
Proof.
  pose proof (try_except_print (write_table df filename)
                (fun e => "Error saving file: " +:+ exn_text e) w
                (write_table_no_escape df filename)) as H.
  unfold save_to_text_file.
  destruct (write_table df filename w) as [[[]| e | |] w'];
    try contradiction; rewrite H; reflexivity.
Qed.

Ltac step_write :=
  match goal with
  | |- context [write_fault ?w ?n] =>
      lazymatch n with
      | context [write_fault] => fail
      | _ => destruct (write_fault w n) eqn:?
      end
  end; cbn; rewrite ?lookup_insert_eq; cbn.

Ltac peel_prefix :=
  repeat first
    [ assumption
    | apply str_prefix_nil
    | apply str_prefix_refl
    | apply str_prefix_app_r
    | apply str_prefix_app_l ].

Lemma write_table_prefix (df : DataFrame) (filename : string) (w : world) :
  open_fault w filename = None ->
  exists p,
    files (snd (write_table df filename w)) !! filename = Some (TextFile p)
    /\ str_prefix p (table_text (clock w (ticks w)) df).
Proof.
  intros Ho. unfold write_table. unfold mbind at 1, M_bind at 1, f_open.
  rewrite Ho. rewrite with_close_files.
  unfold mbind, M_bind, f_write, datetime_now. cbn. rewrite lookup_insert_eq. cbn.
  unfold table_text.
  step_write.
  { exists "". split; [first [reflexivity | apply lookup_insert_eq] | apply str_prefix_nil]. }
  step_write.
  { eexists. split; [first [reflexivity | apply lookup_insert_eq]|].
    change ("" +:+ ?x) with x. rewrite ?append_assoc. peel_prefix. }
  step_write.
  { eexists. split; [first [reflexivity | apply lookup_insert_eq]|].
    change ("" +:+ ?x) with x. rewrite ?append_assoc. peel_prefix. }
  step_write.
  { eexists. split; [first [reflexivity | apply lookup_insert_eq]|].
    change ("" +:+ ?x) with x. rewrite ?append_assoc. peel_prefix. }
  step_write.
  { eexists. split; [first [reflexivity | apply lookup_insert_eq]|].
    change ("" +:+ ?x) with x. rewrite ?append_assoc. peel_prefix. }
  match goal with
  | |- context [write_rows filename df ?w6] =>
      destruct (write_rows_prefix filename df w6 _ (lookup_insert_eq _ _ _))
        as (p & Hp & Hpre);
      destruct (write_rows filename df w6) as [[[]| | |] w7]
  end; cbn in Hp |- *.
  all: eexists; (split; [exact Hp|]).
  all: change ("" +:+ ?x) with x; rewrite ?append_assoc; peel_prefix.
Qed.

(** X7.  Whatever fails while the text table is written, the file never
    holds anything but a beginning of the table.  When [open] fails the
    disk is untouched; once [open] has succeeded the former content of
    the file is gone and the file holds a beginning, possibly empty, of
    the text of the table for the time then read, whichever write or the
    closing fails. *)
Theorem interrupted_table_is_a_prefix
    (df : DataFrame) (filename : string) (w : world) :
  match open_fault w filename with
  | Some _ => files (snd (save_to_text_file (Some df) filename w)) = files w
  | None =>
      exists p,
        files (snd (save_to_text_file (Some df) filename w)) !! filename
        = Some (TextFile p)
        /\ str_prefix p (table_text (clock w (ticks w)) df)
  end.
Proof.
  rewrite save_to_text_file_disk.
  destruct (open_fault w filename) as [e|] eqn:Ho.
  - unfold write_table, mbind, M_bind, f_open. rewrite Ho. reflexivity.
  - apply write_table_prefix. exact Ho.
Qed.

(** ** Each function keeps to its own resources *)

Lemma f_open_other (filename other : string) :
  other <> filename ->
  preserves (fun w => files w !! other) (f_open filename).
Proof.
  intros Hne w. unfold f_open. destruct (open_fault w filename); cbn;
    [reflexivity|]. apply lookup_insert_ne. congruence.
Qed.

Lemma f_write_other (filename other s : string) :
  other <> filename ->
  preserves (fun w => files w !! other) (f_write filename s).
Proof.
  intros Hne w. unfold f_write. destruct (write_fault w (writes w)); cbn;
    [reflexivity|]. apply lookup_insert_ne. congruence.
Qed.

Lemma save_to_text_file_other (df : option DataFrame) (filename other : string) :
  other <> filename ->
  preserves (fun w => files w !! other) (save_to_text_file df filename).
Proof.
  intros Hne. pose proof (f_open_other filename other Hne) as Hopen.
  pose proof (fun s => f_write_other filename other s Hne) as Hwrite.
  unfold save_to_text_file. destruct df as [df|]; [|preserve_leaf].
  apply preserves_try_except; [|intros; preserve_leaf].
  unfold write_table. apply preserves_bind; [exact Hopen|intros _].
  apply preserves_with_exit; [|preserve_leaf].
  repeat (apply preserves_bind;
          [first [apply Hwrite | preserve_leaf] | intros; cbv beta]).
  apply write_rows_preserves. exact Hwrite.
Qed.


(** ** The width of the rows *)

Lemma length_append (a b : string) :
  String.length (a +:+ b) = (String.length a + String.length b)%nat.
Proof.
  induction a as [|c a IH]; [reflexivity|].
  change (String c a +:+ b) with (String c (a +:+ b)). cbn. now rewrite IH.
Qed.

Lemma length_spaces (k : nat) : String.length (spaces k) = k.
Proof. induction k as [|k IH]; cbn; [reflexivity|]. now rewrite IH. Qed.

Lemma length_ljust (width : nat) (s : string) :
  String.length (ljust width s) = Nat.max width (String.length s).
Proof. unfold ljust. rewrite length_append, length_spaces. lia. Qed.

Lemma row_line_length (b : bar) : String.length (row_line b) = row_width b.
Proof.
  unfold row_line, row_width. rewrite !length_append, !length_ljust. cbn. lia.
Qed.

(** X8.  The format [:<w] pads and never cuts.  The header line takes
    62 characters with its newline; a row takes, for each column, the
    larger of the column width and the length of the text, so a row is
    never shorter than the header, and it is as long as the header
    exactly when every text fits its column (12 for the date, 8 for each
    price, 12 for the volume). *)
Theorem rows_line_up_with_header (b : bar) :
  String.length table_header = 62%nat
  /\ String.length (row_line b) = row_width b
  /\ (62 <= String.length (row_line b))%nat
  /\ (String.length (row_line b) = String.length table_header
      <-> fits_columns b).
Proof.
  assert (Hh : String.length table_header = 62%nat) by reflexivity.
  rewrite Hh, row_line_length. unfold row_width, fits_columns.
  repeat split; try lia.
Qed.

(** ** The dates of a fetched table *)

Lemma to_datetime_ms_valid (t : Z) (d : datetime) :
  to_datetime_ms t = Some d ->
  valid_datetime d /\ 1677 <= dt_year d <= 2262.
Proof.
  unfold to_datetime_ms, MAX_TIMESTAMP_MS.
  destruct (Z.ltb_spec ((2 ^ 63 - 1) / 1000000) (Z.abs t)) as [|Hb]; [discriminate|].
  change ((2 ^ 63 - 1) / 1000000) with 9223372036854 in Hb.
  set (o := EPOCH_ORDINAL + t / MS_PER_DAY).
  assert (Ho : 612411 <= o <= 825914).
  { unfold o, EPOCH_ORDINAL, MS_PER_DAY. Z.div_mod_to_equations; lia. }
  pose proof (ord2ymd_spec o ltac:(lia)) as Hspec.
  destruct (ord2ymd o) as [[y m] dd].
  destruct Hspec as (Hy & Hm & Hd & _ & Hlo & Hhi).
  intros H. injection H as <-. unfold valid_datetime. cbn.
  assert (Hyr : 1677 <= y <= 2262).
  { split.
    - destruct (Z_le_gt_dec 1677 y) as [|Hlt]; [assumption|exfalso].
      pose proof (days_before_year_mono (y + 1) 1677 ltac:(lia)) as Hmono.
      change (days_before_year 1677) with 612147 in Hmono. lia.
    - destruct (Z_le_gt_dec y 2262) as [|Hgt]; [assumption|exfalso].
      pose proof (days_before_year_mono 2263 y ltac:(lia)) as Hmono.
      change (days_before_year 2263) with 826178 in Hmono. lia. }
  unfold MS_PER_DAY.
  repeat split; try lia; Z.div_mod_to_equations; lia.
Qed.

Lemma is_iso_date_length (s : string) :
  is_iso_date s = true -> String.length s = 10%nat.
Proof.
  unfold is_iso_date.
  destruct s as [|c0 [|c1 [|c2 [|c3 [|c4 [|c5 [|c6 [|c7 [|c8 [|c9 [|c10 s]]]]]]]]]]];
    cbn; try discriminate. reflexivity.
Qed.

Lemma dates_of_length (rs : list raw_bar) : forall ds,
  dates_of rs = Some ds -> length ds = length rs.
Proof.
  induction rs as [|r rs IH]; intros ds H; cbn in H.
  - injection H as <-. reflexivity.
  - destruct (to_datetime_ms (raw_t r)); [|discriminate].
    destruct (dates_of rs) as [ds0|]; [|discriminate].
    injection H as <-. cbn. now rewrite (IH ds0).
Qed.

Lemma zip_with_length {A B C} (f : A -> B -> C) (l : list A) : forall k,
  length k = length l -> length (zip_with f l k) = length l.
Proof.
  induction l as [|a l IH]; intros [|b k] H; cbn in *; try discriminate;
    [reflexivity|]. now rewrite IH by lia.
Qed.

Lemma dates_of_in_range (rs : list raw_bar) :
  Forall (fun r => Z.abs (raw_t r) <= MAX_TIMESTAMP_MS) rs ->
  exists ds, dates_of rs = Some ds.
Proof.
  induction 1 as [|r rs Hr _ IH]; [exists []; reflexivity|].
  destruct IH as [ds Hds]. cbn [dates_of]. rewrite Hds.
  unfold to_datetime_ms.
  destruct (Z.ltb_spec MAX_TIMESTAMP_MS (Z.abs (raw_t r))) as [|_]; [lia|].
  destruct (ord2ymd _) as [[y m] d]. eauto.
Qed.

(** X3.  For a reply with status 200 whose body is an object holding a
    non-empty array of documented bars under [results],
    [get_stock_data] returns a table with one row for each item of the
    array, in the order of the array, so a table that is not empty; the
    call has sent the one request and has printed nothing, written no
    file and drawn nothing. *)
Theorem fetched_table_is_not_empty
    (api_key ticker days : string) (w : world) (n : Z) (start : datetime)
    (r : response) (rs : list raw_bar) (ds : list datetime) :
  py_int days = Some n ->
  sub_days (clock w (S (ticks w))) n = Some start ->
  net w (request_of w api_key ticker start) = Answer r ->
  good_reply r rs ds ->
  let df := zip_with (bar_of rs) rs ds in
  exists w',
    get_stock_data api_key ticker days w = (Returned (Some df), w')
    /\ df <> [] /\ length df = length rs
    /\ Forall2 (fun r b => to_datetime_ms (raw_t r) = Some (date b)) rs df
    /\ console w' = console w /\ files w' = files w /\ canvas w' = canvas w
    /\ sent w' = (sent w ++ [request_of w api_key ticker start])%list.
Proof.
  intros Hn Hs Hnet (H200 & fields & items & Hb & Hr & Hne & Hrs & Hds) df.
  rewrite get_stock_data_run, Hn, Hs. cbv zeta. rewrite Hnet.
  rewrite (read_response_ok r _ fields items rs ds H200 Hb Hr Hne Hrs Hds).
  fold df. eexists. split; [reflexivity|].
  assert (Hlen : length df = length rs)
    by (apply zip_with_length, dates_of_length; exact Hds).
  split.
  { intros E. rewrite E in Hlen. cbn in Hlen.
    rewrite (raws_of_items_length items rs Hrs) in Hlen.
    destruct items; [contradiction | discriminate]. }
  split; [exact Hlen|]. split.
  { eapply List.Forall2_impl;
      [|apply (table_rows_in_order (bar_of rs) rs); [|exact Hds]].
    - intros a b [H _]. exact H.
    - intros r0 d. split; reflexivity. }
  cbn. repeat split.
Qed.

(** X13.  For a reply with a non-empty array of documented bars whose
    timestamps lie where every version of pandas holds them (a
    nanosecond count of 64 bits), [get_stock_data] returns a table in
    which the date of each row is the UTC day of the timestamp of its
    item, and the date text is [strftime('%Y-%m-%d')] of it: ten
    characters of the shape YYYY-MM-DD, which fit the twelve columns
    the text table gives the date. *)
Theorem fetched_dates_are_iso
    (api_key ticker days : string) (w : world) (n : Z) (start : datetime)
    (r : response) (rs : list raw_bar) :
  py_int days = Some n ->
  sub_days (clock w (S (ticks w))) n = Some start ->
  net w (request_of w api_key ticker start) = Answer r ->
  reply_with_bars r rs ->
  Forall (fun r => Z.abs (raw_t r) <= MAX_TIMESTAMP_MS) rs ->
  exists df w',
    get_stock_data api_key ticker days w = (Returned (Some df), w')
    /\ Forall2 (fun r b =>
                  toordinal (date b) = EPOCH_ORDINAL + raw_t r / MS_PER_DAY
                  /\ valid_datetime (date b)
                  /\ date_str b = strftime_ymd (date b)
                  /\ is_iso_date (date_str b) = true
                  /\ String.length (date_str b) = 10%nat)
         rs df.
Proof.
  intros Hn Hs Hnet (H200 & fields & items & Hb & Hr & Hne & Hrs) Hrange.
  destruct (dates_of_in_range rs Hrange) as [ds Hds].
  rewrite get_stock_data_run, Hn, Hs. cbv zeta. rewrite Hnet.
  rewrite (read_response_ok r _ fields items rs ds H200 Hb Hr Hne Hrs Hds).
  eexists. eexists. split; [reflexivity|].
  eapply List.Forall2_impl;
    [|apply (table_rows_in_order (bar_of rs) rs); [|exact Hds]].
  - intros a b [Ht Hstr]. cbv beta.
    destruct (to_datetime_ms_valid _ _ Ht) as (Hv & Hy).
    assert (Hiso : is_iso_date (date_str b) = true).
    { rewrite Hstr. apply strftime_ymd_iso; [exact Hv|lia]. }
    split; [apply to_datetime_ms_ordinal; exact Ht|].
    split; [exact Hv|]. split; [exact Hstr|]. split; [exact Hiso|].
    apply is_iso_date_length, Hiso.
  - intros r0 d. split; reflexivity.
Qed.

(** ** The two outputs do not depend on each other *)

Lemma save_to_text_file_returns (df : DataFrame) (filename : string) (w : world) :
  fst (save_to_text_file (Some df) filename w) = Returned tt.
Proof.
  pose proof (try_except_print (write_table df filename)
                (fun e => "Error saving file: " +:+ exn_text e) w
                (write_table_no_escape df filename)) as H.
  unfold save_to_text_file.
  destruct (write_table df filename w) as [[[]| e | |] w'];
    try contradiction; rewrite H; reflexivity.
Qed.

Lemma save_to_text_file_chart df filename :
  preserves canvas (save_to_text_file df filename)
  /\ preserves plt_fault (save_to_text_file df filename).
Proof. split; unfold save_to_text_file, write_table; preserve. Qed.

(** X9.  With a table, the main block always goes through both outputs
    and returns.  A chart that fails does not undo the text table: when
    the disk does not fail, stock_data.txt holds the whole table.  A
    text table that fails does not stop the chart: when the plotting
    backend does not fail, the days are a number and the table has a
    last row, stock_chart.png holds the whole chart. *)
Theorem report_outputs_are_independent
    (stock days : string) (df : DataFrame) (w : world) :
  let w' := snd (report stock days (Some df) w) in
  fst (report stock days (Some df) w) = Returned tt
  /\ (open_fault w "stock_data.txt" = None ->
      (forall i, write_fault w i = None) ->
      close_fault w = None ->
      files w' !! "stock_data.txt"
      = Some (TextFile (table_text (clock w (ticks w)) df)))
  /\ ((forall i, plt_fault w i = None) ->
      forall n b, py_int days = Some n -> last df = Some b ->
      files w' !! "stock_chart.png"
      = Some (ImageFile
                (canvas w ++ chart_image stock days "stock_chart.png" df))).
Proof.
  cbv zeta. unfold report, mbind, M_bind, print. cbn [fst snd].
  set (w1 := set_console _ w).
  pose proof (save_to_text_file_returns df "stock_data.txt" w1) as Hret.
  destruct (save_to_text_file_chart (Some df) "stock_data.txt") as [Hcan Hplt].
  specialize (Hcan w1). specialize (Hplt w1).
  pose proof (save_to_text_file_disk df "stock_data.txt" w1) as Hdisk.
  destruct (save_to_text_file (Some df) "stock_data.txt" w1) as [o w2].
  cbn in Hret, Hcan, Hplt, Hdisk. subst o.
  split; [apply create_price_graph_returns|]. split.
  - intros Ho Hw Hc.
    rewrite (create_price_graph_other stock days "stock_chart.png"
               "stock_data.txt" (Some df) ltac:(discriminate) w2).
    destruct (write_table_ok df "stock_data.txt" w1 Ho Hw Hc)
      as (w2' & Hwt & Hfiles & _).
    rewrite Hwt in Hdisk. cbn in Hdisk. rewrite Hdisk, Hfiles.
    apply lookup_insert_eq.
  - intros Hok n b Hn Hlast.
    destruct (draw_chart_ok stock days "stock_chart.png" df w2 n b Hn Hlast)
      as (w3 & Hdc & _ & Hfiles & _).
    { intros i. rewrite Hplt. apply Hok. }
    rewrite create_price_graph_disk, Hdc. cbn. rewrite Hfiles, Hcan.
    apply lookup_insert_eq.
Qed.

(** ** The key is not shown *)

Ltac relate_leaf :=
  let w1 := fresh "w1" in
  let w2 := fresh "w2" in
  let Hv := fresh "Hv" in
  let Hn := fresh "Hn" in
  intros w1 w2 Hv Hn;
  destruct Hv as (Hclock & Hplt & Hopen & Hwrite & Hclose & Hcut & Hstdin
                  & Hticks & Hconsole & Hfiles & Hcanvas & Hcalls & Hwrites);
  unfold_prims; unfold same_view, answers_alike in *; cbn;
  rewrite ?Hclock, ?Hplt, ?Hopen, ?Hwrite, ?Hclose, ?Hcut, ?Hstdin, ?Hticks,
    ?Hconsole, ?Hfiles, ?Hcanvas, ?Hcalls, ?Hwrites;
  repeat (match goal with
          | |- context [match ?x with _ => _ end] =>
              lazymatch x with
              | context [match _ with _ => _ end] => fail
              | _ => destruct x eqn:?
              end
          end; cbn);
  repeat split; solve [assumption | reflexivity | congruence].

Section Key.
Variables k1 k2 : string.

Lemma related_bind {A C} (m1 m2 : M A) (f1 f2 : A -> M C) :
  related k1 k2 m1 m2 -> (forall a, related k1 k2 (f1 a) (f2 a)) ->
  related k1 k2 (m1 ≫= f1) (m2 ≫= f2).
Proof.
  intros Hm Hf w1 w2 Hv Hn. unfold mbind, M_bind.
  destruct (Hm w1 w2 Hv Hn) as (Ho & Hv' & Hn').
  destruct (m1 w1) as [[a| e | |] w1'], (m2 w2) as [[a'| e' | |] w2'];
    cbn in Ho, Hv', Hn' |- *; try discriminate; try (injection Ho as <-);
    auto.
  apply Hf; assumption.
Qed.

Lemma related_try_except {A} (b1 b2 : M A) (h1 h2 : exn -> M A) :
  related k1 k2 b1 b2 -> (forall e, related k1 k2 (h1 e) (h2 e)) ->
  related k1 k2 (try_except b1 h1) (try_except b2 h2).
Proof.
  intros Hm Hf w1 w2 Hv Hn. unfold try_except.
  destruct (Hm w1 w2 Hv Hn) as (Ho & Hv' & Hn').
  destruct (b1 w1) as [[a| e | |] w1'], (b2 w2) as [[a'| e' | |] w2'];
    cbn in Ho, Hv', Hn' |- *; try discriminate; try (injection Ho as <-);
    auto.
  apply Hf; assumption.
Qed.

Lemma related_with_exit {A} (b1 b2 : M A) (x1 x2 : M unit) :
  related k1 k2 b1 b2 -> related k1 k2 x1 x2 ->
  related k1 k2 (with_exit b1 x1) (with_exit b2 x2).
Proof.
  intros Hm Hx w1 w2 Hv Hn. unfold with_exit.
  destruct (Hm w1 w2 Hv Hn) as (Ho & Hv' & Hn').
  destruct (b1 w1) as [[a| e | |] w1'], (b2 w2) as [[a'| e' | |] w2'];
    cbn in Ho, Hv', Hn' |- *; try discriminate; try (injection Ho as <-);
    auto;
    destruct (Hx w1' w2' Hv' Hn') as (Ho2 & Hv2 & Hn2);
    destruct (x1 w1') as [[[]| e1 | |] w1''], (x2 w2') as [[[]| e2 | |] w2''];
    cbn in Ho2, Hv2, Hn2 |- *; try discriminate; try (injection Ho2 as <-);
    auto.
Qed.

Lemma related_requests_get (url : string) :
  related k1 k2 (requests_get url (request_params k1))
    (requests_get url (request_params k2)).
Proof.
  intros w1 w2 Hv Hn. unfold requests_get. rewrite (Hn url).
  destruct (net w2 _); cbn; repeat split; solve [apply Hv | apply Hn].
Qed.
Lemma related_write_rows (filename : string) (rows : list bar) :
  related k1 k2 (write_rows filename rows) (write_rows filename rows).
Proof.
  induction rows as [|r rows IH]; cbn [write_rows].
  - relate_leaf.
  - apply related_bind; [relate_leaf | intros _; exact IH].
Qed.
End Key.

Ltac relate :=
  lazymatch goal with
  | |- related _ _ (write_rows _ _) (write_rows _ _) =>
      apply related_write_rows
  | |- related _ _ (requests_get _ _) (requests_get _ _) =>
      apply related_requests_get
  | |- related _ _ (mbind _ _) (mbind _ _) =>
      apply related_bind; [relate | intros; cbv beta zeta; relate]
  | |- related _ _ (try_except _ _) (try_except _ _) =>
      apply related_try_except; [relate | intros; cbv beta zeta; relate]
  | |- related _ _ (with_exit _ _) (with_exit _ _) =>
      apply related_with_exit; [relate | relate]
  | |- related _ _ (if ?b then _ else _) (if ?b then _ else _) =>
      destruct b; relate
  | |- related _ _ (match ?x with _ => _ end) (match ?x with _ => _ end) =>
      destruct x; relate
  | |- _ => relate_leaf
  end.

Lemma related_report (k1 k2 stock days : string) (df : option DataFrame) :
  related k1 k2 (report stock days df) (report stock days df).
Proof.
  unfold report, save_to_text_file, create_price_graph, write_table, draw_chart.
  relate.
Qed.

Lemma related_get_stock_data (k1 k2 ticker days : string) :
  related k1 k2 (get_stock_data k1 ticker days) (get_stock_data k2 ticker days).
Proof.
  unfold get_stock_data, read_response, DataFrame_of_results. relate.
Qed.

Lemma main_with_env_key (w : world) (k : string) :
  env_key w = Some k -> k <> "" ->
  main w
  = (stock ← input (newline +:+ "Enter a Ticker to Track: ");
     days ← input "Enter Number of Days: ";
     stock_data ← get_stock_data k (py_upper stock) days;
     report (py_upper stock) days stock_data)
      (set_console
         (console w ++ [("=== Stock Price Tracker ===" +:+ newline) +:+ newline])
         w).
Proof.
  intros Hk Hne.
  destruct k as [|c k]; [contradiction|].
  unfold main, get_api_key, mbind, M_bind, print, getenv_key, mret, M_ret.
  cbn. rewrite Hk. reflexivity.
Qed.


(** ** The further properties on sample runs *)

Lemma request_carries_the_key_witness :
  req_params sample_request
  = [("adjusted", "true"); ("sort", "asc");
     ("apikey", key_line (world_answering sample_response))]
  /\ key_line (world_answering sample_response) = "KEY".
Proof.
  destruct (request_carries_the_key (world_answering sample_response)
              sample_request) as (Hp & _ & Hk & _);
    [vm_compute; reflexivity|].
  split; [exact Hp|]. apply Hk; [reflexivity|discriminate].
Defined.

Lemma sample_reply_is_good :
  good_reply sample_response sample_raws sample_dates.
Proof.
  split; [reflexivity|]. exists sample_fields, sample_items.
  repeat split; try reflexivity. discriminate.
Qed.

Lemma fetched_table_witness :
  exists w',
    get_stock_data "KEY" "AAPL" "30" (world_answering sample_response)
    = (Returned (Some sample_table), w')
    /\ sample_table <> [] /\ length sample_table = length sample_raws
    /\ sent w' = [sample_request].
Proof.
  destruct (fetched_table_is_not_empty "KEY" "AAPL" "30"
              (world_answering sample_response) 30 (noon 2024 1 31)
              sample_response sample_raws sample_dates)
    as (w' & Hrun & Hne & Hlen & _ & _ & _ & _ & Hsent).
  - reflexivity.
  - reflexivity.
  - reflexivity.
  - exact sample_reply_is_good.
  - exists w'. split; [exact Hrun|]. split; [exact Hne|].
    split; [exact Hlen|]. exact Hsent.
Defined.

Lemma sample_world_is_healthy (r : response) : healthy (world_answering r).
Proof. repeat split. Qed.



Lemma unreadable_body_witness :
  unreadable_body not_json = Some "JSONDecodeError"
  /\ (exists e, fst (main (world_answering not_json)) = Raised e
                /\ exn_class e = "JSONDecodeError")
  /\ files (snd (main (world_answering not_json))) = ∅.
Proof.
  split; [reflexivity|].
  destruct (unreadable_body_raises (world_answering not_json) sample_request
              not_json "JSONDecodeError") as (He & _ & Hf & _).
  - vm_compute; reflexivity.
  - reflexivity.
  - reflexivity.
  - reflexivity.
  - split; [exact He|exact Hf].
Defined.

Lemma tick_interval_witness :
  1 <= 2
  /\ exists n,
       py_int "30" = Some n /\ 2 = Z.max 1 (n / 15)
       /\ (n < 30 -> 2 = 1) /\ (15 <= n -> 2 = n / 15).
Proof.
  apply (tick_interval_is_positive "AAPL" "30" "stock_chart.png" sample_table
           (world_answering sample_response)
           (chart_plan "AAPL" "30" "stock_chart.png" sample_table) 2).
  - vm_compute; reflexivity.
  - vm_compute. do 9 right. left. reflexivity.
Defined.

Lemma fetched_dates_witness :
  exists df w',
    get_stock_data "KEY" "AAPL" "30" (world_answering sample_response)
    = (Returned (Some df), w')
    /\ map date_str df = ["2024-01-02"; "2024-01-03"].
Proof.
  destruct (fetched_dates_are_iso "KEY" "AAPL" "30"
              (world_answering sample_response) 30 (noon 2024 1 31)
              sample_response sample_raws)
    as (df & w' & Hrun & _).
  - reflexivity.
  - reflexivity.
  - reflexivity.
  - split; [reflexivity|]. exists sample_fields, sample_items.
    repeat split; try reflexivity. discriminate.
  - repeat constructor; vm_compute; discriminate.
  - exists df, w'. split; [exact Hrun|].
    assert (E : get_stock_data "KEY" "AAPL" "30"
                  (world_answering sample_response)
                = (Returned (Some sample_table),
                   snd (get_stock_data "KEY" "AAPL" "30"
                          (world_answering sample_response))))
      by (vm_compute; reflexivity).
    rewrite E in Hrun. injection Hrun as <- _. reflexivity.
Defined.

